(** * Listing adapters, table props and the e-mail option helper

    A shallow embedding of the listing glue code of the dashboard and
    visualization plugins, of the visualization-listing registration shim
    and of the e-mail option helper of the stack connectors, together with
    the properties their specification states about them.

    JavaScript strings are sequences of UTF-16 code units; asynchronous
    functions are computations in a state-and-rejection monad whose state
    holds the component state and the history of calls made to services
    that live outside these files. *)

From Stdlib Require Import ZArith NArith String Ascii.
From stdpp Require Import base tactics option list gmap.

Local Open Scope N_scope.

(** ** JavaScript strings *)

Module Js.

(** A string value: its UTF-16 code units. *)
Definition jsstring : Type := list N.

(** Literals of the source text (all of them are ASCII). *)
Definition str (s : string) : jsstring :=
  map N_of_ascii (list_ascii_of_string s).

(** [ToBoolean] on a string: only the empty string is falsy. *)
Definition truthy (s : jsstring) : bool :=
  match s with [] => false | _ :: _ => true end.

(** [ToBoolean] on [string | undefined]. *)
Definition truthy_opt (o : option jsstring) : bool :=
  match o with None => false | Some s => truthy s end.

(** WhiteSpace and LineTerminator code units, the ones
    [String.prototype.trim] strips. *)
Definition isWhiteSpace (c : N) : bool :=
  (c =? 0x09) || (c =? 0x0A) || (c =? 0x0B) || (c =? 0x0C) || (c =? 0x0D)
  || (c =? 0x20) || (c =? 0xA0) || (c =? 0x1680)
  || ((0x2000 <=? c) && (c <=? 0x200A))
  || (c =? 0x2028) || (c =? 0x2029) || (c =? 0x202F) || (c =? 0x205F)
  || (c =? 0x3000) || (c =? 0xFEFF).

Fixpoint trimStart (s : jsstring) : jsstring :=
  match s with
  | [] => []
  | c :: r => if isWhiteSpace c then trimStart r else s
  end.

Definition trimEnd (s : jsstring) : jsstring :=
  reverse (trimStart (reverse s)).

(** [s.trim()] *)
Definition trim (s : jsstring) : jsstring := trimEnd (trimStart s).

(** [s.split(sep)] for a separator of one code unit: the pieces between
    the separators, empty pieces included; the empty string splits into
    one empty piece. *)
Fixpoint split (sep : N) (s : jsstring) : list jsstring :=
  match s with
  | [] => [[]]
  | c :: r =>
      if c =? sep then [] :: split sep r
      else match split sep r with
           | [] => [[c]]
           | piece :: pieces => (c :: piece) :: pieces
           end
  end.

Definition comma : N := 0x2C.

(** The double quote. *)
Definition dquote : N := 0x22.

(** A [Set] of strings: its elements in insertion order.  [add] leaves
    the set alone when the value is in it already (SameValueZero is
    equality of code units on strings). *)
Definition StringSet : Type := list jsstring.

Definition Set_add (x : jsstring) (s : StringSet) : StringSet :=
  if decide (x ∈ s) then s else s ++ [x].

(** [new Set(iterable)] *)
Definition Set_new (l : list jsstring) : StringSet :=
  foldl (fun s x => Set_add x s) [] l.

(** [Array.from(set)] *)
Definition Array_from (s : StringSet) : list jsstring := s.

End Js.

Import Js.

(** ** The e-mail option helper of the stack connectors *)

Module Email.

Record EmailOption : Type := { label : jsstring }.

(** [getFormattedEmailOptions(searchValue, previousOptions)] *)
Definition getFormattedEmailOptions
    (searchValue : jsstring) (previousOptions : list EmailOption)
    : list EmailOption :=
  if negb (truthy (trim searchValue)) then previousOptions
  else
    let previousEmails := map label previousOptions in
    let allUniqueEmails := Set_new previousEmails in
    let allUniqueEmails :=
      foldl (fun acc email =>
               let trimmedEmail := trim email in
               if truthy trimmedEmail then Set_add trimmedEmail acc else acc)
            allUniqueEmails (split comma searchValue) in
    let formattedOptions :=
      map (fun email => {| label := email |}) (Array_from allUniqueEmails) in
    formattedOptions.

(** The specification's wording, as definitions of their own. *)

(** The entries of a comma-separated text: each piece with the white
    space around it removed, blank pieces left out. *)
Definition entries (searchValue : jsstring) : list jsstring :=
  filter (fun e => truthy e = true) (map trim (split comma searchValue)).

(** Each value once, at the place of its first occurrence. *)
Fixpoint first_occurrences (l : list jsstring) : list jsstring :=
  match l with
  | [] => []
  | x :: r => x :: filter (fun y => y ≠ x) (first_occurrences r)
  end.

End Email.

(** ** Asynchronous computations

    An [async] function is a computation over a state [W] that resolves
    with a value or rejects with an error; [await] is sequencing and a
    rejection skips what follows up to the enclosing [try]/[catch]. *)

Module Async.

Record Error : Type := { message : jsstring }.

Inductive outcome (A : Type) : Type :=
| Resolved (a : A)
| Rejected (e : Error).
Arguments Resolved {A} a.
Arguments Rejected {A} e.

Definition is_resolved {A} (r : outcome A) : bool :=
  match r with Resolved _ => true | Rejected _ => false end.

Definition M (W A : Type) : Type := W -> outcome A * W.

Section Operations.
Context {W : Type}.

Definition ret {A} (a : A) : M W A := fun w => (Resolved a, w).

Definition bind {A B} (m : M W A) (k : A -> M W B) : M W B :=
  fun w =>
    match m w with
    | (Resolved a, w') => k a w'
    | (Rejected e, w') => (Rejected e, w')
    end.

Definition throw {A} (e : Error) : M W A := fun w => (Rejected e, w).

(** [try { body } catch (e) { handler e }] *)
Definition try_catch {A} (body : M W A) (handler : Error -> M W A) : M W A :=
  fun w =>
    match body w with
    | (Resolved a, w') => (Resolved a, w')
    | (Rejected e, w') => handler e w'
    end.

Definition gets {A} (f : W -> A) : M W A := fun w => (Resolved (f w), w).

Definition modify (f : W -> W) : M W unit := fun w => (Resolved tt, f w).

(** Settle with what a service answered. *)
Definition settle {A} (r : outcome A) : M W A := fun w => (r, w).
End Operations.

Module Notations.
Notation "'let*' x ':=' m 'in' k" := (bind m (fun x => k))
  (at level 10, x name, m at level 100, k at level 200,
   format "'[v' 'let*'  x  ':='  m  'in' '/' k ']'").
Notation "'do' m 'then' k" := (bind m (fun _ => k))
  (at level 10, m at level 100, k at level 200,
   format "'[v' 'do'  m  'then' '/' k ']'").
End Notations.
Import Notations.

(** Modelled from the spec: [asyncMap] of [@kbn/std] is not among the
    sources.  The specification describes it as an ordered asynchronous
    mapping that runs the callback on the items one after the other and
    not in parallel, so that a rejection in the middle of a batch leaves
    the remaining items unprocessed. *)
Fixpoint asyncMap {W A B} (items : list A) (fn : A -> M W B) : M W (list B) :=
  match items with
  | [] => ret []
  | x :: rest =>
      let* y := fn x in
      let* ys := asyncMap rest fn in
      ret (y :: ys)
  end.

End Async.

Import Async Async.Notations.

(** ** Messages

    Modelled from the spec: [@kbn/i18n] is outside the sources.
    [i18n.translate(id, {defaultMessage, values})] is taken in the default
    locale, where it yields the default message with each [{name}] replaced
    by the value given for [name]. *)

Module I18n.

Definition lbrace : N := 0x7B.
Definition rbrace : N := 0x7D.

(** The text of a placeholder up to its closing brace, and the rest. *)
Fixpoint placeholder (s : jsstring) : option (jsstring * jsstring) :=
  match s with
  | [] => None
  | c :: r =>
      if c =? rbrace then Some ([], r)
      else match placeholder r with
           | Some (name, rest) => Some (c :: name, rest)
           | None => None
           end
  end.

Definition value_of (values : list (jsstring * jsstring)) (name : jsstring)
    : option jsstring :=
  snd <$> (snd <$> list_find (fun kv => fst kv = name) values).

(** The message with its placeholders filled in; [fuel] bounds the
    number of code units looked at and the length of the message is
    always enough. *)
Fixpoint format_fuel (fuel : nat) (values : list (jsstring * jsstring))
    (s : jsstring) : jsstring :=
  match fuel, s with
  | O, _ => s
  | _, [] => []
  | S fuel, c :: r =>
      if c =? lbrace then
        match placeholder r with
        | Some (name, rest) =>
            match value_of values name with
            | Some v => v ++ format_fuel fuel values rest
            | None => c :: format_fuel fuel values r
            end
        | None => c :: format_fuel fuel values r
        end
      else c :: format_fuel fuel values r
  end.

Definition translate (id defaultMessage : jsstring)
    (values : list (jsstring * jsstring)) : jsstring :=
  format_fuel (length defaultMessage) values defaultMessage.

End I18n.

(** ** Shared data of the listings *)

(** [Reference] of the content-management utilities. *)
Record Reference : Type := {
  ref_type : jsstring;
  ref_id : jsstring;
  ref_name : jsstring;
}.

(** The optional tag filters of a find call. *)
Record FindOptions : Type := {
  references : option (list Reference);
  referencesToExclude : option (list Reference);
}.

(** What [rowItemActions] answers when it restricts a row. *)
Record EditAction : Type := {
  enabled : bool;
  reason : option jsstring;
}.

Record RowItemActions : Type := { edit : EditAction }.

(** The severity of a content-editor validator. *)
Inductive ValidatorType : Type := warning | error.

(** No tag filters: the options are absent, or present with both filters
    absent. *)
Definition no_filters (options : option FindOptions) : Prop :=
  options = None
  \/ options = Some {| references := None; referencesToExclude := None |}.

(** [ToBoolean] on [boolean | undefined]. *)
Definition truthy_flag (o : option bool) : bool := default false o.

Definition SAVED_OBJECTS_LIMIT_SETTING : jsstring := str "savedObjects:listingLimit".

(** ** The dashboard listing *)

Module Dashboard.

Record SearchTags : Type := {
  included : list jsstring;
  excluded : list jsstring;
}.

(** The argument of [findService.search]. *)
Record SearchRequest : Type := {
  search : jsstring;
  per_page : Z;
  tags : SearchTags;
}.

Record DashboardData : Type := {
  data_title : jsstring;
  data_description : option jsstring;
  data_tags : option (list jsstring);
  data_time_range : option (jsstring * jsstring);
}.

Record DashboardMeta : Type := {
  updated_at : option jsstring;
  created_at : option jsstring;
  created_by : option jsstring;
  updated_by : option jsstring;
  meta_managed : option bool;
}.

(** A raw record of the backend. *)
Record DashboardHit : Type := {
  hit_id : jsstring;
  data : DashboardData;
  meta : DashboardMeta;
}.

Record SearchResponse : Type := {
  resp_total : Z;
  dashboards : list DashboardHit;
}.

Record DashboardAttributes : Type := {
  title : jsstring;
  description : option jsstring;
  timeRestore : bool;
}.

(** [DashboardSavedObjectUserContent], the view-model of a row. *)
Record DashboardSavedObjectUserContent : Type := {
  type : jsstring;
  id : jsstring;
  updatedAt : option jsstring;
  createdAt : option jsstring;
  createdBy : option jsstring;
  updatedBy : option jsstring;
  item_references : list Reference;
  managed : option bool;
  attributes : DashboardAttributes;
}.

Record SearchResult : Type := {
  total : Z;
  hits : list DashboardSavedObjectUserContent;
}.

(** What [findService.findById] resolves with. *)
Inductive FindByIdResult : Type :=
| StatusError
| StatusSuccess (attributes_title : jsstring).

Record DuplicateTitleArgs : Type := {
  dup_title : jsstring;
  copyOnSave : bool;
  lastSavedTitle : jsstring;
  isTitleDuplicateConfirmed : bool;
}.

Record MetricMeta : Type := {
  saved_object_type : jsstring;
  meta_total : option Z;
}.

(** The calls that leave this layer, in the order they are made; a call
    that can fail is recorded with how it settled. *)
Inductive Event : Type :=
| ESearch (request : SearchRequest) (resolved : bool)
| EReportPerformanceMetric (eventName : jsstring) (duration : Z) (m : MetricMeta)
| EFindById (dashboardId : jsstring) (resolved : bool)
| ECheckForDuplicateTitle (args : DuplicateTitleArgs) (verdict : option bool)
| EDelete (dashboardId : jsstring) (resolved : bool)
| EClearState (dashboardId : jsstring)
| EAddError (e : Error) (toastTitle : jsstring).

(** The state the hook and its callbacks work on. *)
Record World : Type := {
  log : list Event;
  clock_reads : nat;
  unsavedDashboardIds : list jsstring;
}.

(** The services, constants and strings the hook reaches for.  A
    service answers from the history of the calls made so far. *)
Record Services : Type := {
  uiSettings_get : jsstring -> Z;
  performance_now : nat -> Z;
  findService_search : list Event -> SearchRequest -> outcome SearchResponse;
  findService_findById : list Event -> jsstring -> outcome FindByIdResult;
  checkForDuplicateDashboardTitle :
    list Event -> DuplicateTitleArgs -> outcome bool;
  dashboardClient_delete : list Event -> jsstring -> outcome unit;
  getDashboardIdsWithUnsavedChanges : list Event -> list jsstring;
  tagIdToReference : option (jsstring -> Reference);
  showWriteControls : bool;
  SAVED_OBJECT_LOADED_TIME : jsstring;
  SAVED_OBJECT_DELETE_TIME : jsstring;
  DASHBOARD_SAVED_OBJECT_TYPE : jsstring;
  getDuplicateTitleWarning : jsstring -> jsstring;
  getErrorDeletingDashboardToast : jsstring;
  getManagementItemDisabledEditMessage : jsstring;
}.

(** A content-editor validator. *)
Record Validator : Type := {
  validator_type : ValidatorType;
  fn : jsstring -> jsstring -> M World (option jsstring);
}.

Record CustomValidators : Type := { title_validators : list Validator }.

Section Hook.
Variable svc : Services.

Definition record (ev : Event) : M World unit :=
  modify (fun w =>
    {| log := log w ++ [ev]; clock_reads := clock_reads w;
       unsavedDashboardIds := unsavedDashboardIds w |}).

(** [window.performance.now()] *)
Definition now : M World Z :=
  fun w =>
    (Resolved (performance_now svc (clock_reads w)),
     {| log := log w; clock_reads := S (clock_reads w);
        unsavedDashboardIds := unsavedDashboardIds w |}).

Definition setUnsavedDashboardIds (ids : list jsstring) : M World unit :=
  modify (fun w =>
    {| log := log w; clock_reads := clock_reads w;
       unsavedDashboardIds := ids |}).

(** The calls to the services: each one asks the service, with the history
    so far, records the call and settles as the service answered. *)

(** [await findService.search(request)] *)
Definition search_call (request : SearchRequest) : M World SearchResponse :=
  let* history := gets log in
  let r := findService_search svc history request in
  do record (ESearch request (is_resolved r)) then settle r.

(** [await findService.findById(id)] *)
Definition findById_call (dashboardId : jsstring) : M World FindByIdResult :=
  let* history := gets log in
  let r := findService_findById svc history dashboardId in
  do record (EFindById dashboardId (is_resolved r)) then settle r.

(** [await checkForDuplicateDashboardTitle(args)] *)
Definition checkForDuplicateDashboardTitle_call (args : DuplicateTitleArgs)
    : M World bool :=
  let* history := gets log in
  let r := checkForDuplicateDashboardTitle svc history args in
  let verdict := match r with Resolved b => Some b | Rejected _ => None end in
  do record (ECheckForDuplicateTitle args verdict) then settle r.

(** [await dashboardClient.delete(id)] *)
Definition delete_call (dashboardId : jsstring) : M World unit :=
  let* history := gets log in
  let r := dashboardClient_delete svc history dashboardId in
  do record (EDelete dashboardId (is_resolved r)) then settle r.

(** [setUnsavedDashboardIds(dashboardBackupService.getDashboardIdsWithUnsavedChanges())] *)
Definition refreshUnsaved : M World unit :=
  let* history := gets log in
  setUnsavedDashboardIds (getDashboardIdsWithUnsavedChanges svc history).

(** [getReferenceIds(refs)]: [refs?.map((r) => r.id)] *)
Definition getReferenceIds (refs : option (list Reference))
    : option (list jsstring) :=
  map ref_id <$> refs.

(** The mapping of a raw record to a row, the callback of
    [dashboards.map] in [findDashboardListingItems]. *)
Definition toUserContent (d : DashboardHit) : DashboardSavedObjectUserContent :=
  {| type := str "dashboard";
     id := hit_id d;
     updatedAt := updated_at (meta d);
     createdAt := created_at (meta d);
     createdBy := created_by (meta d);
     updatedBy := updated_by (meta d);
     item_references :=
       match tagIdToReference svc, data_tags (data d) with
       | Some toReference, Some tagIds => map toReference tagIds
       | _, _ => []
       end;
     managed := meta_managed (meta d);
     attributes :=
       {| title := data_title (data d);
          description := data_description (data d);
          timeRestore := bool_decide (is_Some (data_time_range (data d))) |} |}.

(** [findDashboardListingItems(searchTerm, options)] *)
Definition findDashboardListingItems
    (searchTerm : jsstring) (options : option FindOptions)
    : M World SearchResult :=
  let refs := options ≫= references in
  let refsToExclude := options ≫= referencesToExclude in
  let limit := uiSettings_get svc SAVED_OBJECTS_LIMIT_SETTING in
  let* startTime := now in
  let* response :=
    search_call
      {| search := searchTerm;
         per_page := limit;
         tags := {| included := default [] (getReferenceIds refs);
                    excluded := default [] (getReferenceIds refsToExclude) |} |} in
  let* endTime := now in
  do record (EReportPerformanceMetric (SAVED_OBJECT_LOADED_TIME svc)
               (endTime - startTime)%Z
               {| saved_object_type := DASHBOARD_SAVED_OBJECT_TYPE svc;
                  meta_total := None |}) then
  ret {| total := resp_total response;
         hits := map toUserContent (dashboards response) |}.

(** The one validator of [contentEditorValidators.title]. *)
Definition titleValidator : Validator :=
  {| validator_type := warning;
     fn := fun value dashboardId =>
       if truthy dashboardId then
         try_catch
           (let* dashboard := findById_call dashboardId in
            match dashboard with
            | StatusError => ret None
            | StatusSuccess attributes_title =>
                let* validTitle :=
                  checkForDuplicateDashboardTitle_call
                    {| dup_title := value;
                       copyOnSave := false;
                       lastSavedTitle := attributes_title;
                       isTitleDuplicateConfirmed := false |} in
                if negb validTitle
                then throw {| message := getDuplicateTitleWarning svc value |}
                else ret None
            end)
           (fun e => ret (Some (message e)))
       else ret None |}.

(** [contentEditorValidators] *)
Definition contentEditorValidators : CustomValidators :=
  {| title_validators := [titleValidator] |}.

(** The callback [deleteItems] hands to [asyncMap]:
    [async ({ id }) => { await dashboardClient.delete(id);
    dashboardBackupService.clearState(id); }] *)
Definition deleteOne (dashboardId : jsstring) : M World unit :=
  do delete_call dashboardId then
  record (EClearState dashboardId).

(** [deleteItems(dashboardsToDelete)]; of the items only the [id] is
    read, so the batch is given by its ids. *)
Definition deleteItems (dashboardsToDelete : list jsstring) : M World unit :=
  do try_catch
       (let* deleteStartTime := now in
        let* _ := asyncMap dashboardsToDelete deleteOne in
        let* deleteEndTime := now in
        let deleteDuration := (deleteEndTime - deleteStartTime)%Z in
        record (EReportPerformanceMetric (SAVED_OBJECT_DELETE_TIME svc)
                  deleteDuration
                  {| saved_object_type := DASHBOARD_SAVED_OBJECT_TYPE svc;
                     meta_total := Some (Z.of_nat (length dashboardsToDelete)) |}))
       (fun e => record (EAddError e (getErrorDeletingDashboardToast svc)))
  then refreshUnsaved.

(** [rowItemActions(item)] *)
Definition rowItemActions (item : DashboardSavedObjectUserContent)
    : option RowItemActions :=
  let isManaged := truthy_flag (managed item) in
  if negb (showWriteControls svc) || isManaged then
    Some {| edit :=
              {| enabled := false;
                 reason := if isManaged
                           then Some (getManagementItemDisabledEditMessage svc)
                           else None |} |}
  else None.

End Hook.

(** The calls a run of successful deletions leaves in the history. *)
Definition deleted (ids : list jsstring) : list Event :=
  ids ≫= (fun dashboardId => [EDelete dashboardId true; EClearState dashboardId]).

(** The calls made between two states. *)
Definition events_since (w w' : World) : list Event :=
  drop (length (log w)) (log w').

(** The requests a history holds for [findService.search], in order. *)
Definition search_requests (history : list Event) : list SearchRequest :=
  omap (fun ev => match ev with ESearch request _ => Some request | _ => None end)
       history.

End Dashboard.

(** ** The visualization listing *)

Module Visualizations.

(** How an item asks to be edited: through a callback of its own, or at
    a route, possibly of another application. *)
Inductive Editor : Type :=
| EditorOnEdit
| EditorUrl (editUrl : jsstring) (editApp : option jsstring).

(** A raw record of [findListItems], with the fields this layer reads. *)
Record VisualizationListItem : Type := {
  id : jsstring;
  title : jsstring;
  description : option jsstring;
  vis_type : option jsstring;
  savedObjectType : jsstring;
  readOnly : option bool;
  error : option jsstring;
  editor : option Editor;
  managed : option bool;
}.

Record VisAttributes : Type := {
  attr_id : jsstring;
  attr_title : jsstring;
  attr_description : option jsstring;
  attr_readOnly : bool;
  attr_error : option jsstring;
}.

(** [VisualizeUserContent]: the raw record, spread, with [type] and
    [attributes] set on top of it. *)
Record VisualizeUserContent : Type := {
  vis : VisualizationListItem;
  type : jsstring;
  attributes : VisAttributes;
}.

Record ListResponse : Type := {
  resp_total : Z;
  resp_hits : list VisualizationListItem;
}.

Record SearchResult : Type := {
  total : Z;
  hits : list VisualizeUserContent;
}.

Record SaveArgs : Type := {
  args_id : jsstring;
  args_title : jsstring;
  args_description : option jsstring;
  args_tags : list jsstring;
}.

(** The attributes [updateBasicSoAttributes] is asked to write. *)
Record BasicAttributes : Type := {
  new_title : jsstring;
  new_description : jsstring;
  new_tags : list jsstring;
}.

Record DuplicateTitleArgs : Type := {
  dup_id : jsstring;
  dup_title : jsstring;
  lastSavedTitle : jsstring;
  copyOnSave : bool;
  isTitleDuplicateConfirmed : bool;
}.

(** The calls that leave this layer, in the order they are made; a call
    that can fail is recorded with how it settled. *)
Inductive Event : Type :=
| EFindListItems (searchTerm : jsstring) (limit : Z)
    (refs refsToExclude : option (list Reference)) (resolved : bool)
| EUpdateBasicSoAttributes (soId soType : jsstring)
    (attrs : BasicAttributes) (resolved : bool)
| ECheckForDuplicateTitle (args : DuplicateTitleArgs) (resolved : bool)
| EDeleteListItems (items : list VisualizeUserContent) (resolved : bool)
| EAddError (e : Error) (toastTitle : jsstring)
| EShowNewVisModal
| EOnEdit (visId : jsstring) (resolved : bool)
| ENavigateToApp (app path : jsstring)
| EGetStateTransfer
| ENavigateToVisualization (visId : jsstring).

(** The state of the component: the calls made so far and the
    [visualizedUserContent] ref with the hits of the last search. *)
Record World : Type := {
  log : list Event;
  visualizedUserContent : option (list VisualizeUserContent);
}.

(** [VisualizationsTabServices] and the utilities imported next to it.
    A service answers from the history of the calls made so far. *)
Record Services : Type := {
  uiSettings_get : jsstring -> Z;
  findListItems :
    list Event -> jsstring -> Z -> option (list Reference) ->
    option (list Reference) -> outcome ListResponse;
  updateBasicSoAttributes :
    list Event -> jsstring -> jsstring -> BasicAttributes -> outcome unit;
  checkForDuplicateTitle : list Event -> DuplicateTitleArgs -> outcome unit;
  deleteListItems : list Event -> list VisualizeUserContent -> outcome unit;
  onEdit : list Event -> jsstring -> outcome unit;
  capability_save : option bool;
  capability_delete : option bool;
}.

Record Validator : Type := {
  validator_type : ValidatorType;
  fn : jsstring -> jsstring -> M World (option jsstring);
}.

Record CustomValidators : Type := { title_validators : list Validator }.

Section Component.
Variable services : Services.

Definition record (ev : Event) : M World unit :=
  modify (fun w =>
    {| log := log w ++ [ev];
       visualizedUserContent := visualizedUserContent w |}).

Definition set_visualizedUserContent (items : list VisualizeUserContent)
    : M World unit :=
  modify (fun w => {| log := log w; visualizedUserContent := Some items |}).

(** The calls to the services: each one asks the service, with the history
    so far, records the call and settles as the service answered. *)

(** [await visualizationsService.findListItems(...)] *)
Definition findListItems_call (searchTerm : jsstring) (limit : Z)
    (refs refsToExclude : option (list Reference)) : M World ListResponse :=
  let* history := gets log in
  let r := findListItems services history searchTerm limit refs refsToExclude in
  do record (EFindListItems searchTerm limit refs refsToExclude (is_resolved r))
  then settle r.

(** [await updateBasicSoAttributes(id, type, attributes, dependencies)] *)
Definition updateBasicSoAttributes_call (soId soType : jsstring)
    (attrs : BasicAttributes) : M World unit :=
  let* history := gets log in
  let r := updateBasicSoAttributes services history soId soType attrs in
  do record (EUpdateBasicSoAttributes soId soType attrs (is_resolved r))
  then settle r.

(** [await checkForDuplicateTitle(savedObject, false, false, () => {})] *)
Definition checkForDuplicateTitle_call (args : DuplicateTitleArgs)
    : M World unit :=
  let* history := gets log in
  let r := checkForDuplicateTitle services history args in
  do record (ECheckForDuplicateTitle args (is_resolved r)) then settle r.

(** [deleteListItems(items, dependencies)] *)
Definition deleteListItems_call (items : list VisualizeUserContent)
    : M World unit :=
  let* history := gets log in
  let r := deleteListItems services history items in
  do record (EDeleteListItems items (is_resolved r)) then settle r.

(** [await editor.onEdit(id)] *)
Definition onEdit_call (visId : jsstring) : M World unit :=
  let* history := gets log in
  let r := onEdit services history visId in
  do record (EOnEdit visId (is_resolved r)) then settle r.

(** [findVisualizationsForDashboard(searchTerm, services, options)] *)
Definition findVisualizationsForDashboard
    (searchTerm : jsstring) (options : option FindOptions)
    : M World SearchResult :=
  let limit := uiSettings_get services SAVED_OBJECTS_LIMIT_SETTING in
  let* response :=
    findListItems_call searchTerm limit
      (options ≫= references) (options ≫= referencesToExclude) in
  let mappedHits :=
    map (fun item =>
           {| vis := item;
              type := match vis_type item with
                      | Some t => if truthy t then t else savedObjectType item
                      | None => savedObjectType item
                      end;
              attributes :=
                {| attr_id := id item;
                   attr_title := title item;
                   attr_description := description item;
                   attr_readOnly := default false (readOnly item);
                   attr_error := error item |} |})
        (resp_hits response) in
  ret {| total := resp_total response; hits := mappedHits |}.

(** [visualizedUserContent.current?.find((c) => c.id === visId)]: the
    first cached item with the id, if the ref is set and holds one. *)
Definition current_find (visId : jsstring) (w : World)
    : option VisualizeUserContent :=
  visualizedUserContent w ≫= (fun items =>
    snd <$> list_find (fun c => id (vis c) = visId) items).

(** [createItem()] *)
Definition createItem : M World unit := record EShowNewVisModal.

(** [onContentEditorSave(args)] *)
Definition onContentEditorSave (args : SaveArgs) : M World unit :=
  let* content := gets (current_find (args_id args)) in
  match content with
  | Some content =>
      updateBasicSoAttributes_call
        (attr_id (attributes content))
        (type content)
        {| new_title := args_title args;
           new_description := default [] (args_description args);
           new_tags := args_tags args |}
  | None => ret tt
  end.

(** The message of [visualizations.listing.duplicateTitleWarning]. *)
Definition duplicateTitleWarning (value : jsstring) : jsstring :=
  I18n.translate (str "visualizations.listing.duplicateTitleWarning")
    (str "Saving " ++ [dquote] ++ str "{value}" ++ [dquote]
       ++ str " creates a duplicate title.")
    [(str "value", value)].

(** The one validator of [contentEditorValidators.title]. *)
Definition titleValidator : Validator :=
  {| validator_type := warning;
     fn := fun value visId =>
       if truthy visId then
         let* content := gets (current_find visId) in
         match content with
         | Some content =>
             try_catch
               (do checkForDuplicateTitle_call
                     {| dup_id := visId;
                        dup_title := value;
                        lastSavedTitle := title (vis content);
                        copyOnSave := false;
                        isTitleDuplicateConfirmed := false |}
                then ret None)
               (fun e => ret (Some (duplicateTitleWarning value)))
         | None => ret None
         end
       else ret None |}.

(** [contentEditorValidators] *)
Definition contentEditorValidators : CustomValidators :=
  {| title_validators := [titleValidator] |}.

(** [navigateToVisualization(embeddable.getStateTransfer(), id!)]: the
    state transfer is fetched, then handed on with the id. *)
Definition navigateToVisualization_call (visId : jsstring) : M World unit :=
  do record EGetStateTransfer then
  record (ENavigateToVisualization visId).

(** [editItem(item)] *)
Definition editItem (item : VisualizeUserContent) : M World unit :=
  let visId := attr_id (attributes item) in
  match editor (vis item) with
  | Some EditorOnEdit => onEdit_call visId
  | Some (EditorUrl editUrl (Some editApp)) =>
      if truthy editApp then record (ENavigateToApp editApp editUrl)
      else navigateToVisualization_call visId
  | _ => navigateToVisualization_call visId
  end.

(** [(visualizeCapabilities?.save as boolean) ?? false] *)
Definition canSave : bool := default false (capability_save services).

(** [visualizeCapabilities?.delete ?? visualizeCapabilities?.save ?? false] *)
Definition canDelete : bool :=
  default (default false (capability_save services))
          (capability_delete services).

(** The message of [visualizations.listing.deleteErrorTitle]. *)
Definition deleteErrorTitle : jsstring :=
  I18n.translate (str "visualizations.listing.deleteErrorTitle")
    (str "Error deleting visualization") [].

(** [deleteItemsHandler(items)] *)
Definition deleteItemsHandler (items : list VisualizeUserContent)
    : M World unit :=
  try_catch (deleteListItems_call items)
            (fun e => record (EAddError e deleteErrorTitle)).

(** [deleteItems]: there only when the capabilities allow deleting. *)
Definition deleteItems : option (list VisualizeUserContent -> M World unit) :=
  if canDelete then Some deleteItemsHandler else None.

(** [getOnClickTitle(item)] *)
Definition getOnClickTitle (item : VisualizeUserContent)
    : option (unit -> M World unit) :=
  if attr_readOnly (attributes item) || truthy_opt (error (vis item))
  then None
  else Some (fun _ => editItem item).

(** The reasons [rowItemActions] gives. *)
Definition managedVisualizationMessage : jsstring :=
  I18n.translate (str "visualizations.listing.managedVisualizationMessage")
    (str "Elastic manages this visualization. Changing it is not possible.") [].

Definition readOnlyVisualizationMessage : jsstring :=
  I18n.translate (str "visualizations.listing.readOnlyVisualizationMessage")
    (str "These details can't be edited because this visualization is no longer supported.")
    [].

(** [rowItemActions(item)] *)
Definition rowItemActions (item : VisualizeUserContent)
    : option RowItemActions :=
  let isManaged := truthy_flag (managed (vis item)) in
  let isReadOnlyVisualization := attr_readOnly (attributes item) in
  if negb canSave || isManaged || isReadOnlyVisualization then
    Some {| edit :=
              {| enabled := false;
                 reason := if isManaged then Some managedVisualizationMessage
                           else if isReadOnlyVisualization
                                then Some readOnlyVisualizationMessage
                                else None |} |}
  else None.

(** [findItems(searchTerm, options)] *)
Definition findItems (searchTerm : jsstring) (options : option FindOptions)
    : M World SearchResult :=
  let* result := findVisualizationsForDashboard searchTerm options in
  do set_visualizedUserContent (hits result) then
  ret result.

End Component.

(** The arguments a history holds for [findListItems], in order. *)
Definition findListItems_requests (history : list Event)
    : list (jsstring * Z * option (list Reference) * option (list Reference)) :=
  omap (fun ev =>
          match ev with
          | EFindListItems searchTerm limit refs refsToExclude _ =>
              Some (searchTerm, limit, refs, refsToExclude)
          | _ => None
          end)
       history.

(** The calls made between two states. *)
Definition events_since (w w' : World) : list Event :=
  drop (length (log w)) (log w').

End Visualizations.

(** ** The registration shim of the visualization-listing plugin *)

Module VisualizationListingPlugin.

(** [getTableList] of the registered tab is a deferred factory; it is kept
    as data here: the factory that resolves the start services and hands
    them to [GetVisualizationsTableList]. *)
Inductive TableListFactory : Type :=
| VisualizationsTableListFactory.

(** A tab descriptor.  Descriptors are objects: [tab_object] is the
    identity of the object, which is what a [Set] compares. *)
Record TableListTab : Type := {
  tab_object : nat;
  tab_title : jsstring;
  tab_id : jsstring;
  getTableList : TableListFactory;
}.

(** [DashboardSetup]: the contract the dashboard plugin hands out, with its
    [listingViewRegistry], a [Set] of tab descriptors living at an address
    of the store. *)
Record DashboardSetup : Type := { listingViewRegistry : nat }.

Record SetupDependencies : Type := { dashboard : option DashboardSetup }.

(** The store: the sets of tab descriptors by address, their elements in
    insertion order; the number of objects allocated so far; and the lines
    written to the log. *)
Record World : Type := {
  sets : gmap nat (list TableListTab);
  allocated : nat;
  logged : list jsstring;
}.

(** [new] object: the next identity. *)
Definition allocate : M World nat :=
  fun w =>
    (Resolved (allocated w),
     {| sets := sets w; allocated := S (allocated w); logged := logged w |}).

(** [set.add(tab)]: appends unless this very object is in the set. *)
Definition Set_add (address : nat) (tab : TableListTab) : M World unit :=
  fun w =>
    match sets w !! address with
    | Some elements =>
        let elements' :=
          if bool_decide (tab_object tab ∈ map tab_object elements)
          then elements else elements ++ [tab] in
        (Resolved tt,
         {| sets := <[address := elements']> (sets w);
            allocated := allocated w; logged := logged w |})
    | None =>
        (Rejected {| message := str "TypeError" |}, w)
    end.

Definition visualizationsTabTitle : jsstring :=
  I18n.translate (str "visualizationListing.dashboardListingTab.title")
    (str "Visualizations") [].

(** [setup(core, dependencies)]; [core] is read by the deferred factory
    only, which is kept as data, so it is no argument here. *)
Definition setup (dependencies : SetupDependencies) : M World unit :=
  match dashboard dependencies with
  | Some dashboardSetup =>
      let* object := allocate in
      let visualizationsTabConfig :=
        {| tab_object := object;
           tab_title := visualizationsTabTitle;
           tab_id := str "visualizations";
           getTableList := VisualizationsTableListFactory |} in
      Set_add (listingViewRegistry dashboardSetup) visualizationsTabConfig
  | None => ret tt
  end.

(** [start(core, plugins)] *)
Definition start : M World unit := ret tt.

(** The lifecycle hooks the platform can call on the plugin. *)
Inductive Hook : Type :=
| CallSetup (dependencies : SetupDependencies)
| CallStart.

Definition call (h : Hook) : M World unit :=
  match h with
  | CallSetup dependencies => setup dependencies
  | CallStart => start
  end.

(** The number of descriptors of this plugin's tab in a registry. *)
Definition registrations (address : nat) (w : World) : nat :=
  length (filter (fun tab => tab_id tab = str "visualizations")
                 (default [] (sets w !! address))).

(** One lifecycle call takes the store from [w] to [w']. *)
Definition hook_step (w w' : World) : Prop :=
  exists h, snd (call h w) = w'.

(** Every object in a set has been allocated. *)
Definition well_formed (w : World) : Prop :=
  forall address elements tab,
    sets w !! address = Some elements -> tab ∈ elements ->
    (tab_object tab < allocated w)%nat.

End VisualizationListingPlugin.

(** ** Sample services

    Concrete services and states on which the statements below are
    exercised. *)

Module Samples.

Definition boom : Error := {| message := str "Request failed" |}.

Definition dashboardHit (hitId hitTitle : string) : Dashboard.DashboardHit :=
  {| Dashboard.hit_id := str hitId;
     Dashboard.data :=
       {| Dashboard.data_title := str hitTitle;
          Dashboard.data_description := None;
          Dashboard.data_tags := Some [str "tag-1"];
          Dashboard.data_time_range := None |};
     Dashboard.meta :=
       {| Dashboard.updated_at := Some (str "2024-01-01T00:00:00Z");
          Dashboard.created_at := None;
          Dashboard.created_by := None;
          Dashboard.updated_by := None;
          Dashboard.meta_managed := Some false |} |}.

(** A backend with 42 matching dashboards that hands out one of them,
    refuses to delete dashboard [b] and knows the title [Report A]. *)
Definition dashboardServices : Dashboard.Services :=
  {| Dashboard.uiSettings_get :=
       fun key => if decide (key = SAVED_OBJECTS_LIMIT_SETTING) then 1000%Z else 20%Z;
     Dashboard.performance_now := fun reads => (5 * Z.of_nat reads)%Z;
     Dashboard.findService_search := fun _ _ =>
       Resolved {| Dashboard.resp_total := 42;
                   Dashboard.dashboards := [dashboardHit "1" "Report A"] |};
     Dashboard.findService_findById := fun _ _ =>
       Resolved (Dashboard.StatusSuccess (str "Report B"));
     Dashboard.checkForDuplicateDashboardTitle := fun _ args =>
       Resolved (bool_decide (Dashboard.dup_title args <> str "Report A"));
     Dashboard.dashboardClient_delete := fun _ dashboardId =>
       if decide (dashboardId = str "b") then Rejected boom else Resolved tt;
     Dashboard.getDashboardIdsWithUnsavedChanges := fun _ => [];
     Dashboard.tagIdToReference :=
       Some (fun tagId =>
               {| ref_type := str "tag"; ref_id := tagId;
                  ref_name := str "tag-ref-" ++ tagId |});
     Dashboard.showWriteControls := true;
     Dashboard.SAVED_OBJECT_LOADED_TIME := str "saved_object_loaded_time";
     Dashboard.SAVED_OBJECT_DELETE_TIME := str "saved_object_delete_time";
     Dashboard.DASHBOARD_SAVED_OBJECT_TYPE := str "dashboard";
     Dashboard.getDuplicateTitleWarning := fun value =>
       str "Saving " ++ [dquote] ++ value ++ [dquote]
         ++ str " creates a duplicate title";
     Dashboard.getErrorDeletingDashboardToast :=
       str "Error encountered while deleting dashboard";
     Dashboard.getManagementItemDisabledEditMessage :=
       str "Elastic manages this dashboard. Clone it to make changes." |}.

Definition dashboardWorld : Dashboard.World :=
  {| Dashboard.log := [];
     Dashboard.clock_reads := 0;
     Dashboard.unsavedDashboardIds := [] |}.

Definition visItem (visId visTitle : string)
    : Visualizations.VisualizationListItem :=
  {| Visualizations.id := str visId;
     Visualizations.title := str visTitle;
     Visualizations.description := None;
     Visualizations.vis_type := None;
     Visualizations.savedObjectType := str "visualization";
     Visualizations.readOnly := None;
     Visualizations.error := None;
     Visualizations.editor := None;
     Visualizations.managed := None |}.

Definition duplicate : Error := {| message := str "Duplicate title" |}.

(** A backend with 7 matching visualizations that hands out two of them,
    rejects the title [Report A] as a duplicate and fails to delete. *)
Definition visualizationServices : Visualizations.Services :=
  {| Visualizations.uiSettings_get :=
       fun key => if decide (key = SAVED_OBJECTS_LIMIT_SETTING) then 1000%Z else 20%Z;
     Visualizations.findListItems := fun _ _ _ _ _ =>
       Resolved {| Visualizations.resp_total := 7;
                   Visualizations.resp_hits :=
                     [visItem "1" "Report A"; visItem "2" "Report B"] |};
     Visualizations.updateBasicSoAttributes := fun _ _ _ _ => Resolved tt;
     Visualizations.checkForDuplicateTitle := fun _ args =>
       if decide (Visualizations.dup_title args = str "Report A")
       then Rejected duplicate else Resolved tt;
     Visualizations.deleteListItems := fun _ _ => Rejected boom;
     Visualizations.onEdit := fun _ _ => Resolved tt;
     Visualizations.capability_save := Some true;
     Visualizations.capability_delete := None |}.

Definition visualizationWorld : Visualizations.World :=
  {| Visualizations.log := [];
     Visualizations.visualizedUserContent := None |}.

(** A visualization of a type that is no longer supported, one that
    failed to load, and one managed by the system. *)
Definition readOnlyItem : Visualizations.VisualizeUserContent :=
  {| Visualizations.vis := visItem "3" "Legacy";
     Visualizations.type := str "visualization";
     Visualizations.attributes :=
       {| Visualizations.attr_id := str "3";
          Visualizations.attr_title := str "Legacy";
          Visualizations.attr_description := None;
          Visualizations.attr_readOnly := true;
          Visualizations.attr_error := None |} |}.

Definition normalItem : Visualizations.VisualizeUserContent :=
  {| Visualizations.vis := visItem "1" "Report A";
     Visualizations.type := str "visualization";
     Visualizations.attributes :=
       {| Visualizations.attr_id := str "1";
          Visualizations.attr_title := str "Report A";
          Visualizations.attr_description := None;
          Visualizations.attr_readOnly := false;
          Visualizations.attr_error := None |} |}.

Definition brokenItem : Visualizations.VisualizeUserContent :=
  {| Visualizations.vis :=
       {| Visualizations.id := str "4";
          Visualizations.title := str "Broken";
          Visualizations.description := None;
          Visualizations.vis_type := None;
          Visualizations.savedObjectType := str "visualization";
          Visualizations.readOnly := None;
          Visualizations.error := Some (str "Unable to load");
          Visualizations.editor := None;
          Visualizations.managed := None |};
     Visualizations.type := str "visualization";
     Visualizations.attributes :=
       {| Visualizations.attr_id := str "4";
          Visualizations.attr_title := str "Broken";
          Visualizations.attr_description := None;
          Visualizations.attr_readOnly := false;
          Visualizations.attr_error := Some (str "Unable to load") |} |}.

Definition managedItem : Visualizations.VisualizeUserContent :=
  {| Visualizations.vis :=
       {| Visualizations.id := str "5";
          Visualizations.title := str "Managed";
          Visualizations.description := None;
          Visualizations.vis_type := None;
          Visualizations.savedObjectType := str "visualization";
          Visualizations.readOnly := None;
          Visualizations.error := None;
          Visualizations.editor := None;
          Visualizations.managed := Some true |};
     Visualizations.type := str "visualization";
     Visualizations.attributes :=
       {| Visualizations.attr_id := str "5";
          Visualizations.attr_title := str "Managed";
          Visualizations.attr_description := None;
          Visualizations.attr_readOnly := false;
          Visualizations.attr_error := None |} |}.

Definition managedDashboard : Dashboard.DashboardSavedObjectUserContent :=
  {| Dashboard.type := str "dashboard";
     Dashboard.id := str "9";
     Dashboard.updatedAt := None;
     Dashboard.createdAt := None;
     Dashboard.createdBy := None;
     Dashboard.updatedBy := None;
     Dashboard.item_references := [];
     Dashboard.managed := Some true;
     Dashboard.attributes :=
       {| Dashboard.title := str "Managed";
          Dashboard.description := None;
          Dashboard.timeRestore := false |} |}.

Definition secondItem : Visualizations.VisualizeUserContent :=
  {| Visualizations.vis := visItem "2" "Report B";
     Visualizations.type := str "visualization";
     Visualizations.attributes :=
       {| Visualizations.attr_id := str "2";
          Visualizations.attr_title := str "Report B";
          Visualizations.attr_description := None;
          Visualizations.attr_readOnly := false;
          Visualizations.attr_error := None |} |}.

(** What the content editor hands to [onSave]. *)
Definition saveArgs (visId : string) : Visualizations.SaveArgs :=
  {| Visualizations.args_id := str visId;
     Visualizations.args_title := str "Report C";
     Visualizations.args_description := None;
     Visualizations.args_tags := [str "tag-1"] |}.

(** The state after a first search. *)
Definition searchedWorld : Visualizations.World :=
  snd (Visualizations.findItems visualizationServices (str "") None
         visualizationWorld).

(** A store with the dashboard's registry, still empty, at address 0. *)
Definition registryWorld : VisualizationListingPlugin.World :=
  {| VisualizationListingPlugin.sets := {[ 0%nat := [] ]};
     VisualizationListingPlugin.allocated := 0;
     VisualizationListingPlugin.logged := [] |}.

Definition withDashboard : VisualizationListingPlugin.SetupDependencies :=
  {| VisualizationListingPlugin.dashboard :=
       Some {| VisualizationListingPlugin.listingViewRegistry := 0 |} |}.

Definition withoutDashboard : VisualizationListingPlugin.SetupDependencies :=
  {| VisualizationListingPlugin.dashboard := None |}.

End Samples.

(** ** The e-mail parameter fields

    The handlers and conditions of [EmailParamsFields], the component
    [getFormattedEmailOptions] is written for.  A handler is given by the
    calls it makes on the callbacks of the component. *)

Module EmailParams.

(** A value handed to [editAction]: a list of recipients or a text. *)
Inductive ParamValue : Type :=
| Recipients (emails : list jsstring)
| Text (text : option jsstring).

Inductive Call : Type :=
| EditAction (property : jsstring) (value : ParamValue) (index : Z)
| OnBlur (field : jsstring).

(** [to ? to.map((label) => ({ label })) : []], and the same for [cc] and
    [bcc]. *)
Definition options_of (recipients : option (list jsstring))
    : list Email.EmailOption :=
  match recipients with
  | Some emails => map (fun label => {| Email.label := label |}) emails
  | None => []
  end.

(** [onCreateOption(searchValue)] of the combo box of a recipient field. *)
Definition onCreateOption (property : jsstring)
    (recipients : option (list jsstring)) (index : Z) (searchValue : jsstring)
    : list Call :=
  let newOptions :=
    Email.getFormattedEmailOptions searchValue (options_of recipients) in
  [EditAction property (Recipients (map Email.label newOptions)) index].

(** [onChange(selectedOptions)] *)
Definition onChange (property : jsstring) (index : Z)
    (selectedOptions : list Email.EmailOption) : list Call :=
  [EditAction property (Recipients (map Email.label selectedOptions)) index].

(** [onBlur()] of a recipient field: an absent list becomes the empty
    list, then the blur is passed on. *)
Definition onBlurField (property : jsstring)
    (recipients : option (list jsstring)) (index : Z) : list Call :=
  (match recipients with
   | None => [EditAction property (Recipients []) index]
   | Some _ => []
   end) ++ [OnBlur property].

(** [!addCC && (!cc || cc?.length === 0)]: the button that adds the row. *)
Definition showAddButton (added : bool) (recipients : option (list jsstring))
    : bool :=
  negb added
  && match recipients with
     | None => true
     | Some emails => bool_decide (length emails = 0%nat)
     end.

(** [addCC || (cc && cc?.length > 0)]: the row itself. *)
Definition showRow (added : bool) (recipients : option (list jsstring)) : bool :=
  added
  || match recipients with
     | None => false
     | Some emails => bool_decide (0 < length emails)%nat
     end.

(** The state [[isUsingDefault, defaultMessageUsed]]. *)
Record DefaultMessageUsage : Type := {
  isUsingDefault : bool;
  defaultMessageUsed : option jsstring;
}.

(** [useState([false, defaultMessage])] *)
Definition initialUsage (defaultMessage : option jsstring) : DefaultMessageUsage :=
  {| isUsingDefault := false; defaultMessageUsed := defaultMessage |}.

(** The effect that runs when [defaultMessage] changes: the new state and
    the calls made. *)
Definition defaultMessageEffect
    (useDefaultMessage : option bool) (message : option jsstring)
    (usage : DefaultMessageUsage) (defaultMessage : option jsstring) (index : Z)
    : DefaultMessageUsage * list Call :=
  if truthy_flag useDefaultMessage
     || negb (truthy_opt message)
     || (isUsingDefault usage
         && bool_decide (message = defaultMessageUsed usage)
         && bool_decide (defaultMessageUsed usage <> defaultMessage))
  then ({| isUsingDefault := true; defaultMessageUsed := defaultMessage |},
        [EditAction (str "message") (Text defaultMessage) index])
  else (usage, []).

End EmailParams.

(** ** The tabs of the dashboard listing *)

Module DashboardListingTabs.

(** A tab of the listing: the dashboards tab, built on the spot, or a tab
    taken from the registry.  Of the dashboards tab the title and the id
    are kept; its [getTableList] renders a component. *)
Inductive Tab : Type :=
| DashboardsTab (tabTitle tabId : jsstring)
| RegistryTab (tab : VisualizationListingPlugin.TableListTab).

Definition id_of (tab : Tab) : jsstring :=
  match tab with
  | DashboardsTab _ tabId => tabId
  | RegistryTab tab => VisualizationListingPlugin.tab_id tab
  end.

(** [Array.from(set)]: the elements in insertion order. *)
Definition Array_from (address : nat)
    : M VisualizationListingPlugin.World
        (list VisualizationListingPlugin.TableListTab) :=
  fun w =>
    match VisualizationListingPlugin.sets w !! address with
    | Some elements => (Resolved elements, w)
    | None => (Rejected {| message := str "TypeError" |}, w)
    end.

Section Tabs.
(** [DASHBOARD_APP_ID], a constant of a module outside the sources. *)
Variable DASHBOARD_APP_ID : jsstring.

(** [getDashboardListingTabs({..., listingViewRegistry})] *)
Definition getDashboardListingTabs (listingViewRegistry : option nat)
    : M VisualizationListingPlugin.World (list Tab) :=
  let dashboardsTab :=
    DashboardsTab
      (I18n.translate (str "dashboard.listing.tabs.dashboards.title")
         (str "Dashboards") [])
      DASHBOARD_APP_ID in
  let* registryTabs :=
    match listingViewRegistry with
    | Some address => Array_from address
    | None => ret []
    end in
  ret (dashboardsTab :: map RegistryTab registryTabs).

End Tabs.

(** The store after a sequence of lifecycle calls on the plugin. *)
Definition after_hooks (hooks : list VisualizationListingPlugin.Hook)
    (w : VisualizationListingPlugin.World) : VisualizationListingPlugin.World :=
  foldl (fun w h => snd (VisualizationListingPlugin.call h w)) w hooks.

(** Whether a lifecycle call is a [setup] handed the registry at
    [address]. *)
Definition is_setup_with (address : nat) (h : VisualizationListingPlugin.Hook)
    : bool :=
  match h with
  | VisualizationListingPlugin.CallSetup dependencies =>
      match VisualizationListingPlugin.dashboard dependencies with
      | Some d =>
          bool_decide (VisualizationListingPlugin.listingViewRegistry d = address)
      | None => false
      end
  | VisualizationListingPlugin.CallStart => false
  end.

(** The number of such calls in a sequence. *)
Definition setups_with (address : nat)
    (hooks : list VisualizationListingPlugin.Hook) : nat :=
  length (filter (fun h => is_setup_with address h = true) hooks).

End DashboardListingTabs.

(** ** Deleting list items *)

Module SavedObjectsUtils.

(** The state of a deletion of several items: the items handed to the
    content-management client so far, in the order they were handed. *)
Definition Attempts : Type := list Visualizations.VisualizeUserContent.

(** Modelled from the spec: the callback of the mapping inside
    [deleteListItems], which is not among the sources.  The
    content-management client is asked to delete the item, and the item
    counts as attempted however the client answers. *)
Definition deleteItem
    (client_delete : Visualizations.VisualizeUserContent -> outcome unit)
    (item : Visualizations.VisualizeUserContent) : M Attempts unit :=
  fun attempted => (client_delete item, attempted ++ [item]).

(** Modelled from the spec: [deleteListItems] of the saved-object utilities
    of the visualizations plugin is not among the sources.  The
    specification has a delete over several items hand each item to the
    content-management delete through the ordered asynchronous mapping,
    one item after the other and not in parallel, a failure in the middle
    of the batch leaving the remaining items alone. *)
Definition deleteListItems
    (client_delete : Visualizations.VisualizeUserContent -> outcome unit)
    (items : list Visualizations.VisualizeUserContent)
    : M Attempts (list unit) :=
  asyncMap items (deleteItem client_delete).



End SavedObjectsUtils.

(** ** Reading the histories *)

Module Traces.

(** The dashboards a history holds a deletion call for, in order. *)
Definition delete_attempts (events : list Dashboard.Event) : list jsstring :=
  omap (fun ev => match ev with
                  | Dashboard.EDelete dashboardId _ => Some dashboardId
                  | _ => None
                  end)
       events.

(** The errors shown in a toast by the dashboard listing. *)
Definition dashboard_toasts (events : list Dashboard.Event) : list Error :=
  omap (fun ev => match ev with
                  | Dashboard.EAddError e _ => Some e
                  | _ => None
                  end)
       events.

(** The errors shown in a toast by the visualization listing. *)
Definition visualization_toasts (events : list Visualizations.Event)
    : list Error :=
  omap (fun ev => match ev with
                  | Visualizations.EAddError e _ => Some e
                  | _ => None
                  end)
       events.

(** The cache is consistent: every cached row repeats, in its attributes,
    the id of the record it was built from. *)
Definition cache_consistent (w : Visualizations.World) : Prop :=
  forall items c,
    Visualizations.visualizedUserContent w = Some items -> c ∈ items ->
    Visualizations.attr_id (Visualizations.attributes c)
    = Visualizations.id (Visualizations.vis c).

End Traces.

(** ** Sample services that fail *)

Module MoreSamples.

(** The dashboard backend of the samples, out of reach: searching and
    finding by id fail. *)
Definition offlineDashboardServices : Dashboard.Services :=
  {| Dashboard.uiSettings_get :=
       Dashboard.uiSettings_get Samples.dashboardServices;
     Dashboard.performance_now :=
       Dashboard.performance_now Samples.dashboardServices;
     Dashboard.findService_search := fun _ _ => Rejected Samples.boom;
     Dashboard.findService_findById := fun _ _ => Rejected Samples.boom;
     Dashboard.checkForDuplicateDashboardTitle :=
       Dashboard.checkForDuplicateDashboardTitle Samples.dashboardServices;
     Dashboard.dashboardClient_delete := fun _ _ => Resolved tt;
     Dashboard.getDashboardIdsWithUnsavedChanges :=
       Dashboard.getDashboardIdsWithUnsavedChanges Samples.dashboardServices;
     Dashboard.tagIdToReference :=
       Dashboard.tagIdToReference Samples.dashboardServices;
     Dashboard.showWriteControls := false;
     Dashboard.SAVED_OBJECT_LOADED_TIME :=
       Dashboard.SAVED_OBJECT_LOADED_TIME Samples.dashboardServices;
     Dashboard.SAVED_OBJECT_DELETE_TIME :=
       Dashboard.SAVED_OBJECT_DELETE_TIME Samples.dashboardServices;
     Dashboard.DASHBOARD_SAVED_OBJECT_TYPE :=
       Dashboard.DASHBOARD_SAVED_OBJECT_TYPE Samples.dashboardServices;
     Dashboard.getDuplicateTitleWarning :=
       Dashboard.getDuplicateTitleWarning Samples.dashboardServices;
     Dashboard.getErrorDeletingDashboardToast :=
       Dashboard.getErrorDeletingDashboardToast Samples.dashboardServices;
     Dashboard.getManagementItemDisabledEditMessage :=
       Dashboard.getManagementItemDisabledEditMessage Samples.dashboardServices |}.

(** The visualization backend of the samples with a search that fails,
    for a caller who may save but not delete. *)
Definition offlineVisualizationServices : Visualizations.Services :=
  {| Visualizations.uiSettings_get :=
       Visualizations.uiSettings_get Samples.visualizationServices;
     Visualizations.findListItems := fun _ _ _ _ _ => Rejected Samples.boom;
     Visualizations.updateBasicSoAttributes :=
       Visualizations.updateBasicSoAttributes Samples.visualizationServices;
     Visualizations.checkForDuplicateTitle :=
       Visualizations.checkForDuplicateTitle Samples.visualizationServices;
     Visualizations.deleteListItems :=
       Visualizations.deleteListItems Samples.visualizationServices;
     Visualizations.onEdit := fun _ _ => Rejected Samples.boom;
     Visualizations.capability_save := Some true;
     Visualizations.capability_delete := Some false |}.





(** An item edited by a callback of its own, and one with a route but no
    application to open it in. *)
Definition customEditorItem : Visualizations.VisualizeUserContent :=
  {| Visualizations.vis :=
       {| Visualizations.id := str "6";
          Visualizations.title := str "Map";
          Visualizations.description := None;
          Visualizations.vis_type := None;
          Visualizations.savedObjectType := str "map";
          Visualizations.readOnly := None;
          Visualizations.error := None;
          Visualizations.editor := Some Visualizations.EditorOnEdit;
          Visualizations.managed := None |};
     Visualizations.type := str "map";
     Visualizations.attributes :=
       {| Visualizations.attr_id := str "6";
          Visualizations.attr_title := str "Map";
          Visualizations.attr_description := None;
          Visualizations.attr_readOnly := false;
          Visualizations.attr_error := None |} |}.

Definition routeWithoutAppItem : Visualizations.VisualizeUserContent :=
  {| Visualizations.vis :=
       {| Visualizations.id := str "7";
          Visualizations.title := str "Lens";
          Visualizations.description := None;
          Visualizations.vis_type := None;
          Visualizations.savedObjectType := str "lens";
          Visualizations.readOnly := None;
          Visualizations.error := None;
          Visualizations.editor :=
            Some (Visualizations.EditorUrl (str "/edit/7") (Some []));
          Visualizations.managed := None |};
     Visualizations.type := str "lens";
     Visualizations.attributes :=
       {| Visualizations.attr_id := str "7";
          Visualizations.attr_title := str "Lens";
          Visualizations.attr_description := None;
          Visualizations.attr_readOnly := false;
          Visualizations.attr_error := None |} |}.

End MoreSamples.

(** * Properties *)

(** ** Strings *)

Section StringFacts.

Lemma trimStart_nil_iff (s : jsstring) :
  trimStart s = [] <-> Forall (fun c => isWhiteSpace c = true) s.
Proof.
  induction s as [|c r IH]; simpl.
  - split; [constructor | reflexivity].
  - destruct (isWhiteSpace c) eqn:Hc.
    + rewrite IH. split.
      * intros Hr. by constructor.
      * intros Hs. by inversion Hs.
    + split; [discriminate|].
      intros Hs. inversion Hs; congruence.
Qed.

Lemma trimStart_suffix (s : jsstring) :
  exists l, s = l ++ trimStart s /\ Forall (fun c => isWhiteSpace c = true) l.
Proof.
  induction s as [|c r (l & Hr & Hl)]; simpl.
  - by exists [].
  - destruct (isWhiteSpace c) eqn:Hc.
    + exists (c :: l). split; [simpl; congruence | by constructor].
    + by exists [].
Qed.

Lemma trimStart_head (s : jsstring) c r :
  trimStart s = c :: r -> isWhiteSpace c = false.
Proof.
  induction s as [|d t IH]; simpl; [discriminate|].
  destruct (isWhiteSpace d) eqn:Hd; [exact IH | congruence].
Qed.

Lemma trim_nil_iff (s : jsstring) :
  trim s = [] <-> Forall (fun c => isWhiteSpace c = true) s.
Proof.
  unfold trim, trimEnd. split.
  - intros H.
    apply (f_equal reverse) in H. rewrite reverse_involutive in H.
    change (reverse []) with (@nil N) in H.
    apply trimStart_nil_iff in H. apply Forall_reverse in H.
    rewrite reverse_involutive in H.
    destruct (trimStart_suffix s) as (l & Hs & Hl).
    rewrite Hs. by apply Forall_app.
  - intros H. apply trimStart_nil_iff in H. by rewrite H.
Qed.

(** [trim] takes white space off both ends and nothing else. *)
Lemma trim_spec (s : jsstring) :
  exists l r,
    s = l ++ trim s ++ r
    /\ Forall (fun c => isWhiteSpace c = true) l
    /\ Forall (fun c => isWhiteSpace c = true) r
    /\ (forall c t, trim s = c :: t -> isWhiteSpace c = false)
    /\ (forall c t, trim s = t ++ [c] -> isWhiteSpace c = false).
Proof.
  destruct (trimStart_suffix s) as (l & Hs & Hl).
  destruct (trimStart_suffix (reverse (trimStart s))) as (r & Hr & Hrw).
  exists l, (reverse r). unfold trim, trimEnd.
  split; [|split; [exact Hl|split; [by apply Forall_reverse|split]]].
  - rewrite <- reverse_app, <- Hr, reverse_involutive. exact Hs.
  - intros c t Ht.
    destruct (trimStart s) as [|d u] eqn:Hd; [discriminate|].
    assert (Hfirst : isWhiteSpace d = false) by (eapply trimStart_head; eauto).
    apply (f_equal reverse) in Hr.
    rewrite reverse_involutive, reverse_app, Ht in Hr.
    simpl in Hr. injection Hr as -> _. exact Hfirst.
  - intros c t Ht. apply (f_equal reverse) in Ht.
    rewrite reverse_involutive, reverse_app in Ht. simpl in Ht.
    eapply trimStart_head; eauto.
Qed.

(** The pieces of [split] are what lies between the separators. *)
Lemma split_nonempty sep (s : jsstring) : split sep s <> [].
Proof.
  induction s as [|c r IH]; simpl; [discriminate|].
  destruct (c =? sep); [discriminate|].
  destruct (split sep r); discriminate.
Qed.

Lemma split_no_separator sep (s : jsstring) :
  Forall (fun piece => sep ∉ piece) (split sep s).
Proof.
  induction s as [|c r IH]; simpl.
  - constructor; [apply not_elem_of_nil | constructor].
  - destruct (N.eqb_spec c sep) as [->|Hne].
    + constructor; [apply not_elem_of_nil | exact IH].
    + destruct (split sep r) as [|piece pieces].
      * constructor; [|constructor].
        rewrite not_elem_of_cons. split; [congruence | apply not_elem_of_nil].
      * inversion IH; subst. constructor; [|assumption].
        rewrite not_elem_of_cons. split; [congruence | assumption].
Qed.

End StringFacts.

(** ** Messages *)

Section MessageFacts.

Lemma placeholder_shorter (s name rest : jsstring) :
  I18n.placeholder s = Some (name, rest) -> (length rest < length s)%nat.
Proof.
  revert name rest. induction s as [|c r IH]; intros name rest; simpl.
  - discriminate.
  - destruct (c =? I18n.rbrace).
    + intros [= <- <-]. lia.
    + destruct (I18n.placeholder r) as [[name' rest']|]; [|discriminate].
      intros [= <- <-]. specialize (IH _ _ eq_refl). lia.
Qed.

(** The fuel [translate] gives is enough: more of it changes nothing. *)
Lemma format_fuel_enough values fuel : forall fuel' (s : jsstring),
  (length s <= fuel)%nat -> (length s <= fuel')%nat ->
  I18n.format_fuel fuel values s = I18n.format_fuel fuel' values s.
Proof.
  induction fuel as [|fuel IH]; intros fuel' s Hfuel Hfuel'.
  - destruct s; [|simpl in Hfuel; lia]. by destruct fuel'.
  - destruct s as [|c r]; [by destruct fuel'|].
    destruct fuel' as [|fuel']; [simpl in Hfuel'; lia|].
    simpl in *. 
    assert (Hrest : I18n.format_fuel fuel values r = I18n.format_fuel fuel' values r)
      by (apply IH; lia).
    destruct (c =? I18n.lbrace); [|by rewrite Hrest].
    destruct (I18n.placeholder r) as [[name rest]|] eqn:Hplaceholder;
      [|by rewrite Hrest].
    destruct (I18n.value_of values name); [|by rewrite Hrest].
    apply placeholder_shorter in Hplaceholder.
    f_equal. apply IH; lia.
Qed.

Lemma translate_enough_fuel messageId defaultMessage values fuel :
  (length defaultMessage <= fuel)%nat ->
  I18n.translate messageId defaultMessage values
  = I18n.format_fuel fuel values defaultMessage.
Proof. intros Hfuel. unfold I18n.translate. by apply format_fuel_enough. Qed.

End MessageFacts.

(** ** The e-mail option helper *)

Section EmailFacts.
Import Email.

Lemma filter_nothing (P : jsstring -> Prop) `{!forall y, Decision (P y)}
    (l : list jsstring) :
  (forall y, P y) -> filter P l = l.
Proof.
  intros HP. induction l as [|z t IH]; [done|].
  by rewrite filter_cons_True, IH.
Qed.

Lemma elem_of_first_occurrences (l : list jsstring) x :
  x ∈ first_occurrences l <-> x ∈ l.
Proof.
  induction l as [|y r IH]; simpl; [reflexivity|].
  rewrite !elem_of_cons, list_elem_of_filter, IH.
  destruct (decide (x = y)); tauto.
Qed.

Lemma NoDup_first_occurrences (l : list jsstring) :
  NoDup (first_occurrences l).
Proof.
  induction l as [|y r IH]; simpl; constructor.
  - rewrite list_elem_of_filter. tauto.
  - by apply NoDup_filter.
Qed.

(** What a longer text adds comes after what its beginning gave: the
    order is that of the first occurrences. *)
Lemma first_occurrences_app (p q : list jsstring) :
  first_occurrences (p ++ q)
  = first_occurrences p ++ filter (fun y => y ∉ p) (first_occurrences q).
Proof.
  induction p as [|x p IH]; simpl.
  - symmetry. apply filter_nothing. intros y. apply not_elem_of_nil.
  - f_equal. rewrite IH, filter_app, list_filter_filter. f_equal.
    apply list_filter_iff. intros y. rewrite not_elem_of_cons. tauto.
Qed.

Lemma foldl_Set_add (l : list jsstring) (s : StringSet) :
  foldl (fun s x => Set_add x s) s l
  = s ++ filter (fun y => y ∉ s) (first_occurrences l).
Proof.
  revert s. induction l as [|x r IH]; intros s; simpl.
  - by rewrite app_nil_r.
  - rewrite IH. unfold Set_add. destruct (decide (x ∈ s)) as [Hin|Hnin].
    + f_equal. rewrite filter_cons_False by tauto.
      rewrite list_filter_filter. apply list_filter_iff.
      intros y. split; [|tauto]. intros Hy. split; [done|congruence].
    + rewrite <- app_assoc. f_equal. simpl.
      rewrite filter_cons_True by done. f_equal.
      rewrite list_filter_filter. apply list_filter_iff.
      intros y. rewrite not_elem_of_app, not_elem_of_cons. 
      split; [intros (? & ? & _) | intros (? & ?)]; 
        repeat split; try done. apply not_elem_of_nil.
Qed.

Lemma Set_new_first_occurrences (l : list jsstring) :
  Set_new l = first_occurrences l.
Proof.
  unfold Set_new. rewrite foldl_Set_add. simpl.
  apply filter_nothing. intros y. apply not_elem_of_nil.
Qed.

Lemma foldl_add_trimmed (pieces : list jsstring) (s : StringSet) :
  foldl (fun acc email =>
           let trimmedEmail := trim email in
           if truthy trimmedEmail then Set_add trimmedEmail acc else acc)
        s pieces
  = foldl (fun s x => Set_add x s) s
          (filter (fun e => truthy e = true) (map trim pieces)).
Proof.
  revert s. induction pieces as [|piece pieces IH]; intros s; simpl; [done|].
  rewrite IH. destruct (truthy (trim piece)) eqn:Ht.
  - by rewrite filter_cons_True.
  - rewrite filter_cons_False; [done | congruence].
Qed.

Lemma getFormattedEmailOptions_labels searchValue previousOptions :
  trim searchValue <> [] ->
  map label (getFormattedEmailOptions searchValue previousOptions)
  = first_occurrences (map label previousOptions ++ entries searchValue).
Proof.
  intros Hsv. unfold getFormattedEmailOptions, Array_from, entries.
  destruct (trim searchValue) as [|c t] eqn:Htrim; [done|]. simpl negb. cbv iota.
  rewrite foldl_add_trimmed. unfold Set_new. rewrite <- foldl_app.
  rewrite foldl_Set_add. simpl.
  rewrite map_map. simpl. rewrite map_id.
  apply filter_nothing. intros y. apply not_elem_of_nil.
Qed.

End EmailFacts.

(** C6 (amended): for every previous-options list and every search value
    that does not trim to the empty string, the labels of
    [getFormattedEmailOptions] are the previous labels followed by the
    comma-separated entries of the search value, each entry trimmed of the
    white space around it and blank entries dropped, every label kept once
    at the place of its first occurrence; labels are compared code unit by
    code unit, so labels that differ in case are different labels. *)
Theorem getFormattedEmailOptions_first_occurrences
    (searchValue : jsstring) (previousOptions : list Email.EmailOption)
    (Hsearch : trim searchValue <> []) :
  let result :=
    map Email.label (Email.getFormattedEmailOptions searchValue previousOptions) in
  result
  = Email.first_occurrences
      (map Email.label previousOptions ++ Email.entries searchValue)
  /\ NoDup result
  /\ (forall e,
        e ∈ result <->
        e ∈ map Email.label previousOptions
        \/ exists piece,
             piece ∈ split comma searchValue /\ e = trim piece /\ e <> []).
Proof.
  intros result. subst result.
  rewrite (getFormattedEmailOptions_labels _ _ Hsearch).
  split; [reflexivity|]. split; [apply NoDup_first_occurrences|].
  intros e. rewrite elem_of_first_occurrences, elem_of_app.
  unfold Email.entries. rewrite list_elem_of_filter.
  split.
  - intros [Hprev | (Hne & Hin)]; [by left|].
    apply list_elem_of_fmap in Hin as (piece & -> & Hpiece).
    right. exists piece. repeat split; [done|].
    intros Hnil. rewrite Hnil in Hne. discriminate.
  - intros [Hprev | (piece & Hpiece & -> & Hne)]; [by left|].
    right. split; [|apply list_elem_of_fmap; by exists piece].
    destruct (trim piece); [done | reflexivity].
Qed.

(** The example of the specification: previous options [a@x.com] and the
    text [a@x.com, b@x.com] give [a@x.com] and [b@x.com], in this order. *)
Lemma getFormattedEmailOptions_first_occurrences_witness :
  trim (str "a@x.com, b@x.com") <> []
  /\ map Email.label
       (Email.getFormattedEmailOptions (str "a@x.com, b@x.com")
          [ {| Email.label := str "a@x.com" |} ])
     = [str "a@x.com"; str "b@x.com"].
Proof.
  assert (Hsearch : trim (str "a@x.com, b@x.com") <> [])
    by (vm_compute; discriminate).
  split; [exact Hsearch|].
  etransitivity.
  - exact (proj1 (getFormattedEmailOptions_first_occurrences
                    (str "a@x.com, b@x.com")
                    [ {| Email.label := str "a@x.com" |} ] Hsearch)).
  - vm_compute. reflexivity.
Defined.

(** C6 as stated fails on a blank search value: previous options that
    hold a label twice come back as they are, the duplicate included. *)
Lemma getFormattedEmailOptions_blank_keeps_duplicates :
  let previousOptions :=
    [ {| Email.label := str "a@x.com" |}; {| Email.label := str "a@x.com" |} ] in
  map Email.label (Email.getFormattedEmailOptions (str "") previousOptions)
  = [str "a@x.com"; str "a@x.com"]
  /\ ~ NoDup (map Email.label
                (Email.getFormattedEmailOptions (str "") previousOptions)).
Proof.
  split; [reflexivity|].
  intros Hnodup. change (NoDup [str "a@x.com"; str "a@x.com"]) in Hnodup.
  apply NoDup_cons in Hnodup as [Hnotin _].
  apply Hnotin. apply list_elem_of_here.
Qed.

(** C10: with a search value that is empty or holds white space only,
    which is when it trims to the empty string,
    [getFormattedEmailOptions] returns the previous options unchanged. *)
Theorem getFormattedEmailOptions_blank
    (searchValue : jsstring) (previousOptions : list Email.EmailOption)
    (Hblank : Forall (fun c => isWhiteSpace c = true) searchValue) :
  trim searchValue = []
  /\ Email.getFormattedEmailOptions searchValue previousOptions = previousOptions.
Proof.
  apply trim_nil_iff in Hblank. split; [exact Hblank|].
  unfold Email.getFormattedEmailOptions. by rewrite Hblank.
Qed.

Lemma getFormattedEmailOptions_blank_witness :
  Forall (fun c => isWhiteSpace c = true) (str "  ")
  /\ Email.getFormattedEmailOptions (str "  ")
       [ {| Email.label := str "a@x.com" |}; {| Email.label := str "a@x.com" |} ]
     = [ {| Email.label := str "a@x.com" |}; {| Email.label := str "a@x.com" |} ].
Proof.
  assert (Hblank : Forall (fun c => isWhiteSpace c = true) (str "  "))
    by (repeat constructor).
  split; [exact Hblank|].
  exact (proj2 (getFormattedEmailOptions_blank (str "  ") _ Hblank)).
Defined.

(** ** The find operations *)

Section FindFacts.

Lemma findDashboardListingItems_resolved svc searchTerm options w request response :
  request
  = {| Dashboard.search := searchTerm;
       Dashboard.per_page := Dashboard.uiSettings_get svc SAVED_OBJECTS_LIMIT_SETTING;
       Dashboard.tags :=
         {| Dashboard.included :=
              default [] (Dashboard.getReferenceIds (options ≫= references));
            Dashboard.excluded :=
              default [] (Dashboard.getReferenceIds (options ≫= referencesToExclude)) |} |} ->
  Dashboard.findService_search svc (Dashboard.log w) request = Resolved response ->
  Dashboard.findDashboardListingItems svc searchTerm options w
  = (Resolved {| Dashboard.total := Dashboard.resp_total response;
                 Dashboard.hits :=
                   map (Dashboard.toUserContent svc) (Dashboard.dashboards response) |},
     {| Dashboard.log :=
          (Dashboard.log w ++ [Dashboard.ESearch request true])
          ++ [Dashboard.EReportPerformanceMetric
                (Dashboard.SAVED_OBJECT_LOADED_TIME svc)
                (Dashboard.performance_now svc (S (Dashboard.clock_reads w))
                 - Dashboard.performance_now svc (Dashboard.clock_reads w))%Z
                {| Dashboard.saved_object_type := Dashboard.DASHBOARD_SAVED_OBJECT_TYPE svc;
                   Dashboard.meta_total := None |}];
        Dashboard.clock_reads := S (S (Dashboard.clock_reads w));
        Dashboard.unsavedDashboardIds := Dashboard.unsavedDashboardIds w |}).
Proof.
  intros -> Hresponse.
  unfold Dashboard.findDashboardListingItems, Dashboard.search_call, bind, gets,
    Dashboard.now, Dashboard.record, modify, settle, ret.
  simpl. rewrite Hresponse. reflexivity.
Qed.

Lemma findDashboardListingItems_rejected svc searchTerm options w request e :
  request
  = {| Dashboard.search := searchTerm;
       Dashboard.per_page := Dashboard.uiSettings_get svc SAVED_OBJECTS_LIMIT_SETTING;
       Dashboard.tags :=
         {| Dashboard.included :=
              default [] (Dashboard.getReferenceIds (options ≫= references));
            Dashboard.excluded :=
              default [] (Dashboard.getReferenceIds (options ≫= referencesToExclude)) |} |} ->
  Dashboard.findService_search svc (Dashboard.log w) request = Rejected e ->
  Dashboard.findDashboardListingItems svc searchTerm options w
  = (Rejected e,
     {| Dashboard.log := Dashboard.log w ++ [Dashboard.ESearch request false];
        Dashboard.clock_reads := S (Dashboard.clock_reads w);
        Dashboard.unsavedDashboardIds := Dashboard.unsavedDashboardIds w |}).
Proof.
  intros -> Hresponse.
  unfold Dashboard.findDashboardListingItems, Dashboard.search_call, bind, gets,
    Dashboard.now, Dashboard.record, modify, settle, ret.
  simpl. rewrite Hresponse. reflexivity.
Qed.

End FindFacts.

(** C1: with any search term and no tag filters, each find operation
    issues exactly one request to its backend; the request carries the
    search term as given and, as its page-size limit, the value of the
    [savedObjects:listingLimit] setting. *)
Theorem find_requests_limit_and_term
    (svc : Dashboard.Services) (services : Visualizations.Services)
    (searchTerm : jsstring) (options : option FindOptions)
    (wd : Dashboard.World) (wv : Visualizations.World)
    (Hoptions : no_filters options) :
  Dashboard.search_requests
    (Dashboard.log
       (snd (Dashboard.findDashboardListingItems svc searchTerm options wd)))
  = Dashboard.search_requests (Dashboard.log wd)
    ++ [ {| Dashboard.search := searchTerm;
            Dashboard.per_page :=
              Dashboard.uiSettings_get svc (str "savedObjects:listingLimit");
            Dashboard.tags :=
              {| Dashboard.included := []; Dashboard.excluded := [] |} |} ]
  /\ Visualizations.findListItems_requests
       (Visualizations.log
          (snd (Visualizations.findVisualizationsForDashboard
                  services searchTerm options wv)))
     = Visualizations.findListItems_requests (Visualizations.log wv)
       ++ [ (searchTerm,
             Visualizations.uiSettings_get services (str "savedObjects:listingLimit"),
             None, None) ].
Proof.
  split.
  - set (request :=
           {| Dashboard.search := searchTerm;
              Dashboard.per_page :=
                Dashboard.uiSettings_get svc SAVED_OBJECTS_LIMIT_SETTING;
              Dashboard.tags :=
                {| Dashboard.included :=
                     default [] (Dashboard.getReferenceIds (options ≫= references));
                   Dashboard.excluded :=
                     default [] (Dashboard.getReferenceIds
                                   (options ≫= referencesToExclude)) |} |}).
    assert (Hrequest :
              request
              = {| Dashboard.search := searchTerm;
                   Dashboard.per_page :=
                     Dashboard.uiSettings_get svc (str "savedObjects:listingLimit");
                   Dashboard.tags :=
                     {| Dashboard.included := []; Dashboard.excluded := [] |} |})
      by (destruct Hoptions as [-> | ->]; reflexivity).
    rewrite <- Hrequest.
    destruct (Dashboard.findService_search svc (Dashboard.log wd) request)
      as [response | e] eqn:Hresponse.
    + rewrite (findDashboardListingItems_resolved _ _ _ _ _ _ eq_refl Hresponse).
      simpl. unfold Dashboard.search_requests.
      rewrite !omap_app. simpl. by rewrite app_nil_r.
    + rewrite (findDashboardListingItems_rejected _ _ _ _ _ _ eq_refl Hresponse).
      simpl. unfold Dashboard.search_requests. by rewrite omap_app.
  - unfold Visualizations.findVisualizationsForDashboard,
      Visualizations.findListItems_call, bind, gets, Visualizations.record,
      modify, settle, ret.
    simpl.
    assert (Hrefs : options ≫= references = None)
      by (destruct Hoptions as [-> | ->]; reflexivity).
    assert (Hexcl : options ≫= referencesToExclude = None)
      by (destruct Hoptions as [-> | ->]; reflexivity).
    rewrite Hrefs, Hexcl.
    destruct (Visualizations.findListItems _ _ _ _ _ _) as [response | e];
      simpl; unfold Visualizations.findListItems_requests;
      by rewrite omap_app.
Qed.

Lemma find_requests_limit_and_term_witness :
  no_filters None
  /\ Dashboard.search_requests
       (Dashboard.log
          (snd (Dashboard.findDashboardListingItems Samples.dashboardServices
                  (str " Report  A ") None Samples.dashboardWorld)))
     = [ {| Dashboard.search := str " Report  A ";
            Dashboard.per_page := 1000;
            Dashboard.tags :=
              {| Dashboard.included := []; Dashboard.excluded := [] |} |} ]
  /\ Visualizations.findListItems_requests
       (Visualizations.log
          (snd (Visualizations.findVisualizationsForDashboard
                  Samples.visualizationServices (str " Report  A ") None
                  Samples.visualizationWorld)))
     = [ (str " Report  A ", 1000%Z, None, None) ].
Proof.
  assert (Hoptions : no_filters None) by (by left).
  split; [exact Hoptions|].
  exact (find_requests_limit_and_term Samples.dashboardServices
           Samples.visualizationServices (str " Report  A ") None
           Samples.dashboardWorld Samples.visualizationWorld Hoptions).
Defined.

(** C2: whatever the backend answers, the result of a find operation
    carries the total the backend reported; the number of hits plays no
    part in it (the hits are the records of the answer, mapped one by
    one). *)
Theorem find_total_is_backend_total
    (svc : Dashboard.Services) (services : Visualizations.Services)
    (searchTerm : jsstring) (options : option FindOptions) :
  (forall w response,
      Dashboard.findService_search svc (Dashboard.log w)
        {| Dashboard.search := searchTerm;
           Dashboard.per_page :=
             Dashboard.uiSettings_get svc (str "savedObjects:listingLimit");
           Dashboard.tags :=
             {| Dashboard.included :=
                  default [] (Dashboard.getReferenceIds (options ≫= references));
                Dashboard.excluded :=
                  default [] (Dashboard.getReferenceIds
                                (options ≫= referencesToExclude)) |} |}
      = Resolved response ->
      exists result w',
        Dashboard.findDashboardListingItems svc searchTerm options w
        = (Resolved result, w')
        /\ Dashboard.total result = Dashboard.resp_total response
        /\ length (Dashboard.hits result)
           = length (Dashboard.dashboards response))
  /\ (forall w response,
        Visualizations.findListItems services (Visualizations.log w) searchTerm
          (Visualizations.uiSettings_get services (str "savedObjects:listingLimit"))
          (options ≫= references) (options ≫= referencesToExclude)
        = Resolved response ->
        exists result w',
          Visualizations.findVisualizationsForDashboard services searchTerm options w
          = (Resolved result, w')
          /\ Visualizations.total result = Visualizations.resp_total response
          /\ length (Visualizations.hits result)
             = length (Visualizations.resp_hits response)).
Proof.
  split.
  - intros w response Hresponse.
    rewrite (findDashboardListingItems_resolved _ _ _ _ _ _ eq_refl Hresponse).
    eexists _, _. split; [reflexivity|]. simpl.
    split; [reflexivity | apply length_map].
  - intros w response Hresponse.
    unfold Visualizations.findVisualizationsForDashboard,
      Visualizations.findListItems_call, bind, gets, Visualizations.record,
      modify, settle, ret.
    simpl. fold SAVED_OBJECTS_LIMIT_SETTING in Hresponse. rewrite Hresponse.
    eexists _, _. split; [reflexivity|]. simpl.
    split; [reflexivity | apply length_map].
Qed.

(** A backend that reports 42 dashboards and hands out one, and one that
    reports 7 visualizations and hands out two. *)
Lemma find_total_is_backend_total_witness :
  (exists result w',
      Dashboard.findDashboardListingItems Samples.dashboardServices
        (str "Report") None Samples.dashboardWorld
      = (Resolved result, w')
      /\ Dashboard.total result = 42%Z
      /\ length (Dashboard.hits result) = 1%nat)
  /\ (exists result w',
        Visualizations.findVisualizationsForDashboard
          Samples.visualizationServices (str "Report") None
          Samples.visualizationWorld
        = (Resolved result, w')
        /\ Visualizations.total result = 7%Z
        /\ length (Visualizations.hits result) = 2%nat).
Proof.
  split.
  - exact (proj1 (find_total_is_backend_total Samples.dashboardServices
                    Samples.visualizationServices (str "Report") None)
             Samples.dashboardWorld
             {| Dashboard.resp_total := 42;
                Dashboard.dashboards := [Samples.dashboardHit "1" "Report A"] |}
             eq_refl).
  - exact (proj2 (find_total_is_backend_total Samples.dashboardServices
                    Samples.visualizationServices (str "Report") None)
             Samples.visualizationWorld
             {| Visualizations.resp_total := 7;
                Visualizations.resp_hits :=
                  [Samples.visItem "1" "Report A"; Samples.visItem "2" "Report B"] |}
             eq_refl).
Defined.

(** ** Deleting *)

Section DeleteFacts.
Variable svc : Dashboard.Services.

Let deleteOne := Dashboard.deleteOne svc.

Lemma deleteOne_resolved dashboardId w :
  Dashboard.dashboardClient_delete svc (Dashboard.log w) dashboardId = Resolved tt ->
  deleteOne dashboardId w
  = (Resolved tt,
     {| Dashboard.log := Dashboard.log w ++ Dashboard.deleted [dashboardId];
        Dashboard.clock_reads := Dashboard.clock_reads w;
        Dashboard.unsavedDashboardIds := Dashboard.unsavedDashboardIds w |}).
Proof.
  intros Hok. unfold deleteOne, Dashboard.deleteOne, Dashboard.delete_call, bind, gets,
    Dashboard.record, modify, settle.
  simpl. rewrite Hok. simpl. by rewrite <- app_assoc.
Qed.

Lemma deleteOne_rejected dashboardId e w :
  Dashboard.dashboardClient_delete svc (Dashboard.log w) dashboardId = Rejected e ->
  deleteOne dashboardId w
  = (Rejected e,
     {| Dashboard.log := Dashboard.log w ++ [Dashboard.EDelete dashboardId false];
        Dashboard.clock_reads := Dashboard.clock_reads w;
        Dashboard.unsavedDashboardIds := Dashboard.unsavedDashboardIds w |}).
Proof.
  intros Hfail. unfold deleteOne, Dashboard.deleteOne, Dashboard.delete_call, bind, gets,
    Dashboard.record, modify, settle.
  simpl. by rewrite Hfail.
Qed.

(** A batch whose deletions all succeed is deleted item by item, in the
    order of the list. *)
Lemma asyncMap_delete_all ids : forall w,
  (forall history y, y ∈ ids ->
     Dashboard.dashboardClient_delete svc history y = Resolved tt) ->
  asyncMap ids deleteOne w
  = (Resolved (map (fun _ => tt) ids),
     {| Dashboard.log := Dashboard.log w ++ Dashboard.deleted ids;
        Dashboard.clock_reads := Dashboard.clock_reads w;
        Dashboard.unsavedDashboardIds := Dashboard.unsavedDashboardIds w |}).
Proof.
  induction ids as [|y ids IH]; intros w Hok; simpl.
  - unfold ret, Dashboard.deleted. simpl. rewrite app_nil_r. by destruct w.
  - unfold bind at 1. rewrite deleteOne_resolved by (apply Hok; left).
    unfold bind at 1. rewrite IH by (intros; apply Hok; by right).
    unfold ret. simpl. by rewrite <- app_assoc.
Qed.


End DeleteFacts.





(** ** Row actions and the title click *)

(** C4: for a managed item, [rowItemActions] answers with the edit action
    disabled, whether the caller may save (write) or not; the reason given
    is the one for managed items. *)
Theorem rowItemActions_managed_disabled
    (svc : Dashboard.Services) (services : Visualizations.Services) :
  (forall item,
      Dashboard.managed item = Some true ->
      exists actions,
        Dashboard.rowItemActions svc item = Some actions
        /\ enabled (edit actions) = false
        /\ reason (edit actions)
           = Some (Dashboard.getManagementItemDisabledEditMessage svc))
  /\ (forall item,
        Visualizations.managed (Visualizations.vis item) = Some true ->
        exists actions,
          Visualizations.rowItemActions services item = Some actions
          /\ enabled (edit actions) = false
          /\ reason (edit actions)
             = Some Visualizations.managedVisualizationMessage).
Proof.
  split; intros item Hmanaged.
  - unfold Dashboard.rowItemActions. rewrite Hmanaged. simpl.
    rewrite orb_true_r. eexists. repeat split.
  - unfold Visualizations.rowItemActions. rewrite Hmanaged. simpl.
    rewrite orb_true_r. simpl. eexists. repeat split.
Qed.

(** A managed dashboard and a managed visualization, for a caller who may
    save. *)
Lemma rowItemActions_managed_disabled_witness :
  Dashboard.showWriteControls Samples.dashboardServices = true
  /\ Visualizations.canSave Samples.visualizationServices = true
  /\ (exists actions,
        Dashboard.rowItemActions Samples.dashboardServices Samples.managedDashboard
        = Some actions
        /\ enabled (edit actions) = false
        /\ reason (edit actions)
           = Some (str "Elastic manages this dashboard. Clone it to make changes."))
  /\ (exists actions,
        Visualizations.rowItemActions Samples.visualizationServices
          Samples.managedItem = Some actions
        /\ enabled (edit actions) = false
        /\ reason (edit actions) = Some Visualizations.managedVisualizationMessage).
Proof.
  split; [reflexivity|]. split; [reflexivity|]. split.
  - exact (proj1 (rowItemActions_managed_disabled Samples.dashboardServices
                    Samples.visualizationServices)
             Samples.managedDashboard eq_refl).
  - exact (proj2 (rowItemActions_managed_disabled Samples.dashboardServices
                    Samples.visualizationServices)
             Samples.managedItem eq_refl).
Defined.

(** C5 (amended): for an item with the read-only flag set, and for an item
    that carries an error, [getOnClickTitle] returns [undefined]; for an
    item with neither, it returns a handler which, when invoked, does what
    [editItem] does on that item. *)
Theorem getOnClickTitle_handler
    (services : Visualizations.Services)
    (item : Visualizations.VisualizeUserContent) :
  (Visualizations.attr_readOnly (Visualizations.attributes item) = true ->
   Visualizations.getOnClickTitle services item = None)
  /\ (truthy_opt (Visualizations.error (Visualizations.vis item)) = true ->
      Visualizations.getOnClickTitle services item = None)
  /\ (Visualizations.attr_readOnly (Visualizations.attributes item) = false ->
      truthy_opt (Visualizations.error (Visualizations.vis item)) = false ->
      exists handler,
        Visualizations.getOnClickTitle services item = Some handler
        /\ forall w, handler tt w = Visualizations.editItem services item w).
Proof.
  unfold Visualizations.getOnClickTitle. repeat split.
  - intros ->. reflexivity.
  - intros ->. by rewrite orb_true_r.
  - intros -> ->. simpl. eexists. split; [reflexivity|]. reflexivity.
Qed.

Lemma getOnClickTitle_handler_witness :
  Visualizations.getOnClickTitle Samples.visualizationServices Samples.readOnlyItem
  = None
  /\ Visualizations.getOnClickTitle Samples.visualizationServices Samples.brokenItem
     = None
  /\ exists handler,
       Visualizations.getOnClickTitle Samples.visualizationServices
         Samples.normalItem = Some handler
       /\ forall w,
            handler tt w
            = Visualizations.editItem Samples.visualizationServices
                Samples.normalItem w.
Proof.
  split; [|split].
  - exact (proj1 (getOnClickTitle_handler Samples.visualizationServices
                    Samples.readOnlyItem) eq_refl).
  - exact (proj1 (proj2 (getOnClickTitle_handler Samples.visualizationServices
                           Samples.brokenItem)) eq_refl).
  - exact (proj2 (proj2 (getOnClickTitle_handler Samples.visualizationServices
                           Samples.normalItem)) eq_refl eq_refl).
Defined.

(** C5 as stated fails on an item that is not read-only but carries an
    error: it has no click handler. *)
Lemma getOnClickTitle_error_item_has_no_handler :
  Visualizations.attr_readOnly (Visualizations.attributes Samples.brokenItem)
  = false
  /\ Visualizations.getOnClickTitle Samples.visualizationServices Samples.brokenItem
     = None.
Proof. split; reflexivity. Qed.

(** ** The content editor *)

Section ContentEditorFacts.

Lemma current_find_absent visId (w : Visualizations.World) :
  (forall items c,
     Visualizations.visualizedUserContent w = Some items -> c ∈ items ->
     Visualizations.id (Visualizations.vis c) <> visId) ->
  Visualizations.current_find visId w = None.
Proof.
  intros Habsent. unfold Visualizations.current_find.
  destruct (Visualizations.visualizedUserContent w) as [items|]; [|done].
  simpl. rewrite (proj2 (list_find_None _ items)); [done|].
  apply Forall_forall. intros c Hc. by apply (Habsent items).
Qed.

Lemma current_find_first visId (w : Visualizations.World) pre c post :
  Visualizations.visualizedUserContent w = Some (pre ++ c :: post) ->
  Forall (fun d => Visualizations.id (Visualizations.vis d) <> visId) pre ->
  Visualizations.id (Visualizations.vis c) = visId ->
  Visualizations.current_find visId w = Some c.
Proof.
  intros Hcache Hpre Hc. unfold Visualizations.current_find.
  rewrite Hcache. simpl. clear Hcache.
  induction Hpre as [|d pre Hd Hpre IH]; simpl.
  - by rewrite decide_True.
  - rewrite decide_False by done.
    destruct (list_find _ (pre ++ c :: post)) as [[i y]|]; simpl in *; 
      [by injection IH as -> | done].
Qed.

End ContentEditorFacts.

(** The cache is what the last search found. *)
Lemma findItems_caches_hits services searchTerm options
    (w w' : Visualizations.World) result :
  Visualizations.findItems services searchTerm options w = (Resolved result, w') ->
  Visualizations.visualizedUserContent w' = Some (Visualizations.hits result).
Proof.
  unfold Visualizations.findItems, Visualizations.findVisualizationsForDashboard,
    Visualizations.findListItems_call, Visualizations.set_visualizedUserContent,
    bind, gets, Visualizations.record, modify, settle, ret.
  simpl. destruct (Visualizations.findListItems _ _ _ _ _ _); simpl; [|done].
  by intros [= <- <-].
Qed.

(** C8: when no cached item of the last search has the id handed to
    [onSave], the callback makes no call, resolves and leaves the state as
    it is; when one has, the callback issues exactly one update, for the
    first cached item with that id, with the title, the description and
    the tags it was given, and settles as that update does. *)
Theorem onContentEditorSave_updates_cached_item
    (services : Visualizations.Services) (args : Visualizations.SaveArgs)
    (w : Visualizations.World) :
  ((forall items c,
      Visualizations.visualizedUserContent w = Some items -> c ∈ items ->
      Visualizations.id (Visualizations.vis c) <> Visualizations.args_id args) ->
   Visualizations.onContentEditorSave services args w = (Resolved tt, w))
  /\ (forall pre c post,
        Visualizations.visualizedUserContent w = Some (pre ++ c :: post) ->
        Forall (fun d => Visualizations.id (Visualizations.vis d)
                         <> Visualizations.args_id args) pre ->
        Visualizations.id (Visualizations.vis c) = Visualizations.args_id args ->
        let attrs :=
          {| Visualizations.new_title := Visualizations.args_title args;
             Visualizations.new_description :=
               default [] (Visualizations.args_description args);
             Visualizations.new_tags := Visualizations.args_tags args |} in
        let soId := Visualizations.attr_id (Visualizations.attributes c) in
        let answer :=
          Visualizations.updateBasicSoAttributes services (Visualizations.log w)
            soId (Visualizations.type c) attrs in
        Visualizations.onContentEditorSave services args w
        = (answer,
           {| Visualizations.log :=
                Visualizations.log w
                ++ [Visualizations.EUpdateBasicSoAttributes soId
                      (Visualizations.type c) attrs (is_resolved answer)];
              Visualizations.visualizedUserContent :=
                Visualizations.visualizedUserContent w |})).
Proof.
  split.
  - intros Habsent. unfold Visualizations.onContentEditorSave, bind, gets.
    by rewrite (current_find_absent _ _ Habsent).
  - intros pre c post Hcache Hpre Hc attrs soId answer.
    unfold Visualizations.onContentEditorSave, bind at 1, gets.
    rewrite (current_find_first _ _ _ _ _ Hcache Hpre Hc).
    unfold Visualizations.updateBasicSoAttributes_call, bind, gets,
      Visualizations.record, modify, settle.
    reflexivity.
Qed.

(** The cache of the sample holds the items [1] and [2]: saving under the
    id [7] does nothing, saving under the id [2] updates the second item. *)
Lemma onContentEditorSave_updates_cached_item_witness :
  Visualizations.onContentEditorSave Samples.visualizationServices
    (Samples.saveArgs "7") Samples.searchedWorld
  = (Resolved tt, Samples.searchedWorld)
  /\ Visualizations.onContentEditorSave Samples.visualizationServices
       (Samples.saveArgs "2") Samples.searchedWorld
     = (Resolved tt,
        {| Visualizations.log :=
             Visualizations.log Samples.searchedWorld
             ++ [Visualizations.EUpdateBasicSoAttributes (str "2")
                   (str "visualization")
                   {| Visualizations.new_title := str "Report C";
                      Visualizations.new_description := [];
                      Visualizations.new_tags := [str "tag-1"] |}
                   true];
           Visualizations.visualizedUserContent :=
             Some [Samples.normalItem; Samples.secondItem] |}).
Proof.
  split.
  - apply (proj1 (onContentEditorSave_updates_cached_item
                    Samples.visualizationServices (Samples.saveArgs "7")
                    Samples.searchedWorld)).
    intros items c Hitems Hc.
    change (Some [Samples.normalItem; Samples.secondItem] = Some items) in Hitems.
    injection Hitems as <-.
    apply elem_of_cons in Hc as [-> | Hc]; [vm_compute; discriminate|].
    apply list_elem_of_singleton in Hc as ->. vm_compute; discriminate.
  - refine (proj2 (onContentEditorSave_updates_cached_item
                     Samples.visualizationServices (Samples.saveArgs "2")
                     Samples.searchedWorld)
              [Samples.normalItem] Samples.secondItem [] eq_refl _ eq_refl).
    constructor; [vm_compute; discriminate | constructor].
Defined.

(** ** The duplicate-title validators *)

Section ValidatorFacts.



(** What the validator of the visualization listing does, case by case. *)
Lemma visualization_validator_run services value visId w :
  let fn := fun v => Visualizations.fn v value visId w in
  forall v, v ∈ Visualizations.title_validators
                  (Visualizations.contentEditorValidators services) ->
  Visualizations.validator_type v = warning
  /\ fn v
     = if truthy visId then
         match Visualizations.current_find visId w with
         | Some content =>
             let args :=
               {| Visualizations.dup_id := visId;
                  Visualizations.dup_title := value;
                  Visualizations.lastSavedTitle :=
                    Visualizations.title (Visualizations.vis content);
                  Visualizations.copyOnSave := false;
                  Visualizations.isTitleDuplicateConfirmed := false |} in
             let answer :=
               Visualizations.checkForDuplicateTitle services
                 (Visualizations.log w) args in
             (Resolved (if is_resolved answer then None
                        else Some (Visualizations.duplicateTitleWarning value)),
              {| Visualizations.log :=
                   Visualizations.log w
                   ++ [Visualizations.ECheckForDuplicateTitle args
                         (is_resolved answer)];
                 Visualizations.visualizedUserContent :=
                   Visualizations.visualizedUserContent w |})
         | None => (Resolved None, w)
         end
       else (Resolved None, w).
Proof.
  intros fn v Hv. apply list_elem_of_singleton in Hv. subst v fn.
  split; [reflexivity|]. simpl.
  destruct (truthy visId); [|reflexivity].
  unfold bind at 1, gets.
  destruct (Visualizations.current_find visId w) as [content|]; [|reflexivity].
  unfold try_catch, Visualizations.checkForDuplicateTitle_call, bind, gets,
    Visualizations.record, modify, settle, ret.
  simpl. by destruct (Visualizations.checkForDuplicateTitle _ _ _).
Qed.

(** What the validator of the dashboard listing does, case by case. *)
Lemma dashboard_validator_run svc value dashboardId w :
  let fn := fun v => Dashboard.fn v value dashboardId w in
  let logged := fun events =>
    {| Dashboard.log := Dashboard.log w ++ events;
       Dashboard.clock_reads := Dashboard.clock_reads w;
       Dashboard.unsavedDashboardIds := Dashboard.unsavedDashboardIds w |} in
  forall v, v ∈ Dashboard.title_validators (Dashboard.contentEditorValidators svc) ->
  Dashboard.validator_type v = warning
  /\ fn v
     = if truthy dashboardId then
         match Dashboard.findService_findById svc (Dashboard.log w) dashboardId with
         | Rejected e =>
             (Resolved (Some (message e)),
              logged [Dashboard.EFindById dashboardId false])
         | Resolved Dashboard.StatusError =>
             (Resolved None, logged [Dashboard.EFindById dashboardId true])
         | Resolved (Dashboard.StatusSuccess attributes_title) =>
             let args :=
               {| Dashboard.dup_title := value;
                  Dashboard.copyOnSave := false;
                  Dashboard.lastSavedTitle := attributes_title;
                  Dashboard.isTitleDuplicateConfirmed := false |} in
             match Dashboard.checkForDuplicateDashboardTitle svc
                     (Dashboard.log w ++ [Dashboard.EFindById dashboardId true])
                     args with
             | Resolved validTitle =>
                 (Resolved (if validTitle then None
                            else Some (Dashboard.getDuplicateTitleWarning svc value)),
                  logged [Dashboard.EFindById dashboardId true;
                          Dashboard.ECheckForDuplicateTitle args (Some validTitle)])
             | Rejected e =>
                 (Resolved (Some (message e)),
                  logged [Dashboard.EFindById dashboardId true;
                          Dashboard.ECheckForDuplicateTitle args None])
             end
         end
       else (Resolved None, w).
Proof.
  intros fn logged v Hv. apply list_elem_of_singleton in Hv. subst v fn logged.
  split; [reflexivity|]. simpl.
  destruct (truthy dashboardId); [|reflexivity].
  unfold try_catch, bind at 1, Dashboard.findById_call, bind, gets,
    Dashboard.record, modify, settle, ret.
  simpl.
  destruct (Dashboard.findService_findById _ _ _) as [[|attributes_title]|e];
    simpl; try reflexivity.
  unfold Dashboard.checkForDuplicateDashboardTitle_call, bind, gets,
    Dashboard.record, modify, settle, ret, throw.
  simpl.
  destruct (Dashboard.checkForDuplicateDashboardTitle _ _ _) as [[|]|e];
    simpl; by rewrite <- app_assoc.
Qed.


End ValidatorFacts.




(** ** The registration shim *)

Section PluginFacts.
Import VisualizationListingPlugin.

Lemma registrations_insert address address' elements (w : World) allocated' :
  registrations address
    {| sets := <[address' := elements]> (sets w);
       allocated := allocated'; logged := logged w |}
  = if decide (address' = address)
    then length (filter (fun tab => tab_id tab = str "visualizations") elements)
    else registrations address w.
Proof.
  unfold registrations. simpl. destruct (decide (address' = address)) as [->|Hne].
  - by rewrite lookup_insert_eq.
  - by rewrite lookup_insert_ne.
Qed.

(** No lifecycle call takes a registration away. *)
Lemma call_keeps_registrations h (w : World) address :
  (registrations address w <= registrations address (snd (call h w)))%nat.
Proof.
  destruct h as [[[[address']|]]|]; simpl; try done.
  unfold setup, bind, allocate, Set_add. simpl.
  destruct (sets w !! address') as [elements|] eqn:Hset; simpl; [|done].
  rewrite registrations_insert.
  destruct (decide (address' = address)) as [->|Hne]; [|done].
  unfold registrations. rewrite Hset. simpl.
  case_bool_decide; [done|]. rewrite filter_app, length_app. lia.
Qed.

Lemma hook_steps_keep_registrations (w w' : World) address :
  rtc hook_step w w' ->
  (registrations address w <= registrations address w')%nat.
Proof.
  induction 1 as [|w1 w2 w3 [h <-] _ IH]; [done|].
  etransitivity; [apply call_keeps_registrations | exact IH].
Qed.

End PluginFacts.

(** C9: [setup] adds the descriptor of the visualizations tab to the
    dashboard's registry, once, when the dashboard dependency is there,
    and does nothing when it is not; either way it resolves and writes
    nothing to the log.  [start] changes nothing, and no later lifecycle
    call takes a registration away: a registry that holds the tab keeps
    it. *)
Theorem setup_registers_iff_dashboard
    (dependencies : VisualizationListingPlugin.SetupDependencies)
    (w : VisualizationListingPlugin.World)
    (Hwf : VisualizationListingPlugin.well_formed w)
    (Hregistry : forall d,
        VisualizationListingPlugin.dashboard dependencies = Some d ->
        is_Some (VisualizationListingPlugin.sets w
                   !! VisualizationListingPlugin.listingViewRegistry d)) :
  exists w',
    VisualizationListingPlugin.setup dependencies w = (Resolved tt, w')
    /\ VisualizationListingPlugin.logged w' = VisualizationListingPlugin.logged w
    /\ (forall d,
          VisualizationListingPlugin.dashboard dependencies = Some d ->
          let address := VisualizationListingPlugin.listingViewRegistry d in
          exists elements tab,
            VisualizationListingPlugin.sets w !! address = Some elements
            /\ VisualizationListingPlugin.sets w'
               = <[address := elements ++ [tab]]>
                   (VisualizationListingPlugin.sets w)
            /\ VisualizationListingPlugin.tab_id tab = str "visualizations"
            /\ VisualizationListingPlugin.tab_title tab = str "Visualizations"
            /\ VisualizationListingPlugin.registrations address w'
               = S (VisualizationListingPlugin.registrations address w))
    /\ (VisualizationListingPlugin.dashboard dependencies = None -> w' = w)
    /\ VisualizationListingPlugin.start w' = (Resolved tt, w')
    /\ (forall w'' address,
          rtc VisualizationListingPlugin.hook_step w' w'' ->
          (VisualizationListingPlugin.registrations address w'
           <= VisualizationListingPlugin.registrations address w'')%nat).
Proof.
  destruct dependencies as [[[address]|]].
  - destruct (Hregistry _ eq_refl) as [elements Hset]. simpl in Hset.
    assert (Hfresh :
              VisualizationListingPlugin.allocated w
              ∉ map VisualizationListingPlugin.tab_object elements).
    { intros Hin. apply list_elem_of_fmap in Hin as (tab & Heq & Htab).
      specialize (Hwf address elements tab Hset Htab). lia. }
    eexists. split; [|split; [|split; [|split; [|split]]]].
    + unfold VisualizationListingPlugin.setup, bind,
        VisualizationListingPlugin.allocate, VisualizationListingPlugin.Set_add.
      simpl. rewrite Hset. simpl. rewrite bool_decide_eq_false_2 by exact Hfresh.
      reflexivity.
    + reflexivity.
    + intros d [= <-]. simpl. eexists elements, _.
      split; [exact Hset|]. split; [reflexivity|]. split; [reflexivity|].
      split; [reflexivity|].
      rewrite registrations_insert, decide_True by done.
      unfold VisualizationListingPlugin.registrations. rewrite Hset. simpl.
      rewrite filter_app, length_app. simpl. lia.
    + discriminate.
    + reflexivity.
    + intros w'' a. apply hook_steps_keep_registrations.
  - exists w. split; [reflexivity|]. split; [reflexivity|].
    split; [discriminate|]. split; [reflexivity|]. split; [reflexivity|].
    intros w'' a. apply hook_steps_keep_registrations.
Qed.

(** A registry that is still empty: with the dashboard, [setup] leaves one
    visualizations tab in it; without, the store is as before. *)
Lemma setup_registers_iff_dashboard_witness :
  VisualizationListingPlugin.well_formed Samples.registryWorld
  /\ VisualizationListingPlugin.registrations 0
       (snd (VisualizationListingPlugin.setup Samples.withDashboard
               Samples.registryWorld)) = 1%nat
  /\ VisualizationListingPlugin.setup Samples.withoutDashboard Samples.registryWorld
     = (Resolved tt, Samples.registryWorld).
Proof.
  assert (Hwf : VisualizationListingPlugin.well_formed Samples.registryWorld).
  { intros address elements tab Hset Htab. simpl in Hset.
    apply lookup_singleton_Some in Hset as [_ <-]. by apply elem_of_nil in Htab. }
  split; [exact Hwf|]. split.
  - destruct (setup_registers_iff_dashboard Samples.withDashboard
                Samples.registryWorld Hwf) as (w' & Hrun & _ & Hsome & _).
    + intros d [= <-]. simpl. rewrite lookup_singleton_eq. by eexists.
    + rewrite Hrun.
      destruct (Hsome _ eq_refl) as (elements & tab & _ & _ & _ & _ & Hcount).
      etransitivity; [exact Hcount | reflexivity].
  - destruct (setup_registers_iff_dashboard Samples.withoutDashboard
                Samples.registryWorld Hwf) as (w' & Hrun & _ & _ & Hnone & _).
    + intros d [=].
    + rewrite Hrun. by rewrite (Hnone eq_refl).
Defined.


(** * Further properties of the code *)

(** ** More on strings *)

Section MoreStringFacts.

Lemma trimStart_fixed (s : jsstring) :
  (forall c t, s = c :: t -> isWhiteSpace c = false) -> trimStart s = s.
Proof.
  destruct s as [|c t]; [done|]. intros Hhead. simpl.
  by rewrite (Hhead c t eq_refl).
Qed.

(** Trimming what is trimmed changes nothing. *)
Lemma trim_idempotent (s : jsstring) : trim (trim s) = trim s.
Proof.
  destruct (trim_spec s) as (l & r & _ & _ & _ & Hfirst & Hlast).
  unfold trim at 1, trimEnd.
  rewrite (trimStart_fixed (trim s)) by exact Hfirst.
  rewrite trimStart_fixed; [apply reverse_involutive|].
  intros c t Hrev. apply (Hlast c (reverse t)).
  apply (f_equal reverse) in Hrev.
  by rewrite reverse_involutive, reverse_cons in Hrev.
Qed.

Lemma elem_of_trim (s : jsstring) c : c ∈ trim s -> c ∈ s.
Proof.
  destruct (trim_spec s) as (l & r & Hs & _). intros Hc.
  rewrite Hs, !elem_of_app. tauto.
Qed.

(** Splitting a text made of two texts with a separator between them
    gives the pieces of the first followed by the pieces of the second. *)
Lemma split_app sep (s1 s2 : jsstring) :
  split sep (s1 ++ sep :: s2) = split sep s1 ++ split sep s2.
Proof.
  induction s1 as [|c r IH]; simpl.
  - by rewrite N.eqb_refl.
  - destruct (c =? sep); [by rewrite IH|]. rewrite IH.
    destruct (split sep r) as [|piece pieces] eqn:Hr; [|done].
    by apply split_nonempty in Hr.
Qed.

Lemma split_Forall sep (P : N -> Prop) (s : jsstring) :
  Forall P s -> Forall (Forall P) (split sep s).
Proof.
  induction 1 as [|c r Hc Hr IH]; simpl.
  - by repeat constructor.
  - destruct (c =? sep); [by constructor|].
    destruct (split sep r) as [|piece pieces]; [by repeat constructor|].
    inversion IH; subst. constructor; [by constructor | done].
Qed.

End MoreStringFacts.

(** ** More on the e-mail option helper *)

Section MoreEmailFacts.
Import Email.

Lemma options_of_labels (options : list EmailOption) :
  map (fun email => {| label := email |}) (map label options) = options.
Proof.
  induction options as [|[email] options IH]; [done|]. simpl. by rewrite IH.
Qed.

Lemma labels_of_options (emails : list jsstring) :
  map label (map (fun email => {| label := email |}) emails) = emails.
Proof. induction emails as [|e emails IH]; [done|]. simpl. by rewrite IH. Qed.

Lemma getFormattedEmailOptions_nonblank searchValue previousOptions :
  trim searchValue <> [] ->
  getFormattedEmailOptions searchValue previousOptions
  = map (fun email => {| label := email |})
        (first_occurrences (map label previousOptions ++ entries searchValue)).
Proof.
  intros Hsv.
  rewrite <- (getFormattedEmailOptions_labels _ _ Hsv).
  by rewrite options_of_labels.
Qed.

Lemma filter_nothing_on (P : jsstring -> Prop) `{!forall y, Decision (P y)}
    (l : list jsstring) :
  (forall y, y ∈ l -> P y) -> filter P l = l.
Proof.
  induction l as [|z t IH]; intros HP; [done|].
  rewrite filter_cons_True by (apply HP; left).
  rewrite IH; [done|]. intros y Hy. apply HP. by right.
Qed.

Lemma first_occurrences_NoDup (l : list jsstring) :
  NoDup l -> first_occurrences l = l.
Proof.
  induction 1 as [|x l Hx Hl IH]; [done|]. simpl. rewrite IH. f_equal.
  apply filter_nothing_on. intros y Hy ->. done.
Qed.

Lemma first_occurrences_absorb (l m : list jsstring) :
  first_occurrences (first_occurrences l ++ m) = first_occurrences (l ++ m).
Proof.
  rewrite !first_occurrences_app.
  rewrite (first_occurrences_NoDup (first_occurrences l))
    by apply NoDup_first_occurrences.
  f_equal. apply list_filter_iff. intros y.
  by rewrite elem_of_first_occurrences.
Qed.

Lemma first_occurrences_absorbed (l m : list jsstring) :
  (forall y, y ∈ m -> y ∈ l) ->
  first_occurrences (l ++ m) = first_occurrences l.
Proof.
  intros Hsub. rewrite first_occurrences_app.
  rewrite <- (app_nil_r (first_occurrences l)) at 2. f_equal.
  assert (Hall : forall y, y ∈ first_occurrences m -> y ∈ l)
    by (intros y Hy; apply Hsub; by apply elem_of_first_occurrences).
  induction (first_occurrences m) as [|y k IH]; [done|].
  rewrite filter_cons_False by (intros Hy; apply Hy, Hall; left).
  apply IH. intros z Hz. apply Hall. by right.
Qed.

Lemma entries_blank searchValue : trim searchValue = [] -> entries searchValue = [].
Proof.
  intros Hblank. apply trim_nil_iff in Hblank.
  apply (split_Forall comma) in Hblank. unfold entries.
  induction Hblank as [|piece pieces Hpiece _ IH]; [done|]. simpl.
  apply trim_nil_iff in Hpiece. rewrite Hpiece.
  rewrite filter_cons_False by done. exact IH.
Qed.

Lemma entries_app s1 s2 :
  entries (s1 ++ comma :: s2) = entries s1 ++ entries s2.
Proof. unfold entries. by rewrite split_app, map_app, filter_app. Qed.

Lemma joined_not_blank (s1 s2 : jsstring) : trim (s1 ++ comma :: s2) <> [].
Proof.
  intros Hblank. apply trim_nil_iff in Hblank.
  apply Forall_app in Hblank as [_ Hblank]. by inversion Hblank.
Qed.

End MoreEmailFacts.

(** X1: entering the same text a second time changes nothing:
    [getFormattedEmailOptions] is idempotent in its options. *)
Theorem getFormattedEmailOptions_idempotent
    (searchValue : jsstring) (previousOptions : list Email.EmailOption) :
  Email.getFormattedEmailOptions searchValue
    (Email.getFormattedEmailOptions searchValue previousOptions)
  = Email.getFormattedEmailOptions searchValue previousOptions.
Proof.
  destruct (decide (trim searchValue = [])) as [Hblank|Hsv].
  - unfold Email.getFormattedEmailOptions. by rewrite Hblank.
  - rewrite !(getFormattedEmailOptions_nonblank searchValue) by exact Hsv.
    f_equal. rewrite labels_of_options, first_occurrences_absorb.
    apply first_occurrences_absorbed. intros y Hy. apply elem_of_app. by right.
Qed.

(** X2: entering two texts one after the other gives what entering them
    at once, joined by a comma, gives, as long as one of them is not
    blank. *)
Theorem getFormattedEmailOptions_compose
    (first second : jsstring) (previousOptions : list Email.EmailOption)
    (Hnonblank : trim first <> [] \/ trim second <> []) :
  Email.getFormattedEmailOptions second
    (Email.getFormattedEmailOptions first previousOptions)
  = Email.getFormattedEmailOptions (first ++ comma :: second) previousOptions.
Proof.
  rewrite (getFormattedEmailOptions_nonblank (first ++ comma :: second))
    by apply joined_not_blank.
  rewrite entries_app.
  destruct (decide (trim first = [])) as [Hfirst|Hfirst];
    destruct (decide (trim second = [])) as [Hsecond|Hsecond].
  - tauto.
  - rewrite (entries_blank first) by exact Hfirst. simpl.
    unfold Email.getFormattedEmailOptions at 2. rewrite Hfirst. simpl.
    by apply getFormattedEmailOptions_nonblank.
  - rewrite (entries_blank second), app_nil_r by exact Hsecond.
    unfold Email.getFormattedEmailOptions at 1. rewrite Hsecond. simpl.
    by apply getFormattedEmailOptions_nonblank.
  - rewrite (getFormattedEmailOptions_nonblank second) by exact Hsecond.
    rewrite (getFormattedEmailOptions_nonblank first) by exact Hfirst.
    f_equal. rewrite labels_of_options, first_occurrences_absorb.
    by rewrite app_assoc.
Qed.

Lemma getFormattedEmailOptions_compose_witness :
  (trim (str "a@x.com") <> [] \/ trim (str " b@x.com ,a@x.com") <> [])
  /\ Email.getFormattedEmailOptions (str " b@x.com ,a@x.com")
       (Email.getFormattedEmailOptions (str "a@x.com")
          [ {| Email.label := str "c@x.com" |} ])
     = Email.getFormattedEmailOptions (str "a@x.com, b@x.com ,a@x.com")
         [ {| Email.label := str "c@x.com" |} ].
Proof.
  assert (Hnonblank :
            trim (str "a@x.com") <> [] \/ trim (str " b@x.com ,a@x.com") <> [])
    by (left; vm_compute; discriminate).
  split; [exact Hnonblank|].
  exact (getFormattedEmailOptions_compose (str "a@x.com")
           (str " b@x.com ,a@x.com") [ {| Email.label := str "c@x.com" |} ]
           Hnonblank).
Defined.

(** X3: whatever the text, no previous label is lost, and every label of
    the result that was not there before is a clean address: not empty,
    without white space around it and without a comma. *)
Theorem getFormattedEmailOptions_added_labels_clean
    (searchValue : jsstring) (previousOptions : list Email.EmailOption) :
  let result :=
    map Email.label (Email.getFormattedEmailOptions searchValue previousOptions) in
  (forall e, e ∈ map Email.label previousOptions -> e ∈ result)
  /\ (forall e, e ∈ result -> e ∉ map Email.label previousOptions ->
        e <> [] /\ trim e = e /\ comma ∉ e).
Proof.
  intros result. subst result.
  destruct (decide (trim searchValue = [])) as [Hblank|Hsv].
  - unfold Email.getFormattedEmailOptions. rewrite Hblank. simpl.
    split; [done|]. intros e He Hnew. done.
  - rewrite (getFormattedEmailOptions_labels _ _ Hsv). split.
    + intros e He. apply elem_of_first_occurrences, elem_of_app. by left.
    + intros e He Hnew.
      apply elem_of_first_occurrences, elem_of_app in He as [He|He]; [done|].
      unfold Email.entries in He.
      apply list_elem_of_filter in He as [Hne He].
      apply list_elem_of_fmap in He as (piece & -> & Hpiece).
      split; [|split].
      * intros Hnil. rewrite Hnil in Hne. discriminate.
      * apply trim_idempotent.
      * intros Hcomma. apply elem_of_trim in Hcomma.
        pose proof (split_no_separator comma searchValue) as Hpieces.
        rewrite Forall_forall in Hpieces. by apply (Hpieces piece).
Qed.

(** X4: when the previous options hold no label twice, they come back at
    the front of the result, in their order; what the text adds comes
    after them. *)
Theorem getFormattedEmailOptions_extends
    (searchValue : jsstring) (previousOptions : list Email.EmailOption)
    (Hunique : NoDup (map Email.label previousOptions)) :
  previousOptions
    `prefix_of` Email.getFormattedEmailOptions searchValue previousOptions.
Proof.
  destruct (decide (trim searchValue = [])) as [Hblank|Hsv].
  - unfold Email.getFormattedEmailOptions. by rewrite Hblank.
  - rewrite (getFormattedEmailOptions_nonblank _ _ Hsv).
    rewrite first_occurrences_app, map_app.
    rewrite (first_occurrences_NoDup _ Hunique), options_of_labels.
    by eexists.
Qed.

Lemma getFormattedEmailOptions_extends_witness :
  NoDup (map Email.label
           [ {| Email.label := str "b@x.com" |}; {| Email.label := str "a@x.com" |} ])
  /\ [ {| Email.label := str "b@x.com" |}; {| Email.label := str "a@x.com" |} ]
       `prefix_of`
       Email.getFormattedEmailOptions (str "a@x.com,c@x.com")
         [ {| Email.label := str "b@x.com" |}; {| Email.label := str "a@x.com" |} ].
Proof.
  assert (Hunique :
            NoDup (map Email.label
                     [ {| Email.label := str "b@x.com" |};
                       {| Email.label := str "a@x.com" |} ])).
  { apply NoDup_cons. split.
    - intros Hin. apply list_elem_of_singleton in Hin. discriminate.
    - apply NoDup_singleton. }
  split; [exact Hunique|].
  exact (getFormattedEmailOptions_extends (str "a@x.com,c@x.com") _ Hunique).
Defined.

Lemma getFormattedEmailOptions_added_labels_clean_witness :
  str "d@x.com"
    ∈ map Email.label
        (Email.getFormattedEmailOptions (str " d@x.com ,")
           [ {| Email.label := str " a@x.com" |} ])
  /\ str " a@x.com"
       ∈ map Email.label
           (Email.getFormattedEmailOptions (str " d@x.com ,")
              [ {| Email.label := str " a@x.com" |} ])
  /\ trim (str "d@x.com") = str "d@x.com".
Proof.
  pose proof (getFormattedEmailOptions_added_labels_clean (str " d@x.com ,")
                [ {| Email.label := str " a@x.com" |} ]) as [Hkept Hclean].
  assert (Hin : str "d@x.com"
                  ∈ map Email.label
                      (Email.getFormattedEmailOptions (str " d@x.com ,")
                         [ {| Email.label := str " a@x.com" |} ]))
    by (vm_compute; apply list_elem_of_further, list_elem_of_here).
  split; [exact Hin|]. split.
  - apply Hkept. apply list_elem_of_here.
  - apply (Hclean _ Hin). intros Hold.
    apply list_elem_of_singleton in Hold. discriminate.
Defined.

(** ** The e-mail parameter fields *)

(** X5: creating an option in a recipient field makes one [editAction]
    call.  The recipients it submits hold every recipient there was; they
    are the recipients there were (none, when the list was absent) if the
    text is blank, and begin with them if no recipient was there twice. *)
Theorem onCreateOption_submits
    (property : jsstring) (recipients : option (list jsstring)) (index : Z)
    (searchValue : jsstring) :
  exists submitted,
    EmailParams.onCreateOption property recipients index searchValue
    = [EmailParams.EditAction property (EmailParams.Recipients submitted) index]
    /\ (forall e, e ∈ default [] recipients -> e ∈ submitted)
    /\ (trim searchValue = [] -> submitted = default [] recipients)
    /\ (NoDup (default [] recipients) ->
        default [] recipients `prefix_of` submitted).
Proof.
  eexists. split; [reflexivity|].
  assert (Hlabels : map Email.label (EmailParams.options_of recipients)
                    = default [] recipients).
  { destruct recipients as [emails|]; [apply labels_of_options | done]. }
  destruct (decide (trim searchValue = [])) as [Hblank|Hsv].
  - unfold Email.getFormattedEmailOptions. rewrite Hblank. simpl.
    rewrite Hlabels. repeat split; done.
  - rewrite (getFormattedEmailOptions_labels _ _ Hsv), Hlabels.
    split; [|split]; [|done|].
    + intros e He. apply elem_of_first_occurrences, elem_of_app. by left.
    + intros Hunique. rewrite first_occurrences_app.
      rewrite (first_occurrences_NoDup _ Hunique). by eexists.
Qed.

Lemma onCreateOption_submits_witness :
  EmailParams.onCreateOption (str "to") None 0 (str "  ")
  = [EmailParams.EditAction (str "to") (EmailParams.Recipients []) 0]
  /\ exists added,
       EmailParams.onCreateOption (str "cc") (Some [str "b@x.com"]) 0
         (str "b@x.com, a@x.com")
       = [EmailParams.EditAction (str "cc")
            (EmailParams.Recipients ([str "b@x.com"] ++ added)) 0].
Proof.
  split.
  - destruct (onCreateOption_submits (str "to") None 0 (str "  "))
      as (submitted & Hcall & _ & Hblank & _).
    rewrite Hcall, Hblank; [reflexivity | vm_compute; reflexivity].
  - destruct (onCreateOption_submits (str "cc") (Some [str "b@x.com"]) 0
                (str "b@x.com, a@x.com"))
      as (submitted & Hcall & _ & _ & Hprefix).
    destruct (Hprefix (NoDup_singleton _)) as [added ->].
    exists added. exact Hcall.
Defined.

(** X6: of the button that adds the [Cc] (or [Bcc]) row and the row
    itself, exactly one is shown. *)
Theorem add_button_or_row
    (added : bool) (recipients : option (list jsstring)) :
  EmailParams.showAddButton added recipients
  = negb (EmailParams.showRow added recipients).
Proof.
  unfold EmailParams.showAddButton, EmailParams.showRow.
  destruct added; [done|]. destruct recipients as [[|e emails]|]; done.
Qed.

(** X7: the effect on a change of the default message.  A message the
    user wrote (not empty, and not the default that was put in) is left
    alone, with no call made, unless the default is forced; an empty
    message always gets the default; and a message that still is the
    default that was put in follows the default to its new text. *)
Theorem defaultMessageEffect_cases
    (useDefaultMessage : option bool) (message : option jsstring)
    (usage : EmailParams.DefaultMessageUsage) (defaultMessage : option jsstring)
    (index : Z) :
  let applied :=
    ({| EmailParams.isUsingDefault := true;
        EmailParams.defaultMessageUsed := defaultMessage |},
     [EmailParams.EditAction (str "message") (EmailParams.Text defaultMessage)
        index]) in
  let run :=
    EmailParams.defaultMessageEffect useDefaultMessage message usage
      defaultMessage index in
  (truthy_flag useDefaultMessage = false ->
   truthy_opt message = true ->
   message <> EmailParams.defaultMessageUsed usage ->
   run = (usage, []))
  /\ (truthy_opt message = false -> run = applied)
  /\ (EmailParams.isUsingDefault usage = true ->
      message = EmailParams.defaultMessageUsed usage ->
      EmailParams.defaultMessageUsed usage <> defaultMessage ->
      run = applied)
  /\ (truthy_flag useDefaultMessage = false ->
      truthy_opt message = true ->
      EmailParams.isUsingDefault usage = false ->
      run = (usage, [])).
Proof.
  intros applied run. subst applied run.
  unfold EmailParams.defaultMessageEffect. repeat split.
  - intros -> -> Hcustom. simpl.
    rewrite (bool_decide_eq_false_2 _ Hcustom). by rewrite andb_false_r.
  - intros ->. simpl. by rewrite orb_true_r.
  - intros -> Hsame Hchanged.
    rewrite (bool_decide_eq_true_2 _ Hsame), (bool_decide_eq_true_2 _ Hchanged).
    simpl. by rewrite orb_true_r.
  - intros -> -> ->. reflexivity.
Qed.

(** A message of the user's own while the default changes; no message;
    the first default followed to the second; and an existing message when
    the component is mounted. *)
Lemma defaultMessageEffect_cases_witness :
  let first := Some (str "Alert fired") in
  let second := Some (str "Alert {name} fired") in
  let following :=
    {| EmailParams.isUsingDefault := true;
       EmailParams.defaultMessageUsed := first |} in
  EmailParams.defaultMessageEffect None (Some (str "My own text")) following
    second 0
  = (following, [])
  /\ EmailParams.defaultMessageEffect None (Some []) following second 0
     = ({| EmailParams.isUsingDefault := true;
           EmailParams.defaultMessageUsed := second |},
        [EmailParams.EditAction (str "message") (EmailParams.Text second) 0])
  /\ EmailParams.defaultMessageEffect None first following second 0
     = ({| EmailParams.isUsingDefault := true;
           EmailParams.defaultMessageUsed := second |},
        [EmailParams.EditAction (str "message") (EmailParams.Text second) 0])
  /\ EmailParams.defaultMessageEffect None first
       (EmailParams.initialUsage second) second 0
     = (EmailParams.initialUsage second, []).
Proof.
  intros first second following. split; [|split; [|split]].
  - apply (proj1 (defaultMessageEffect_cases None (Some (str "My own text"))
                    following second 0)); [reflexivity | reflexivity |].
    discriminate.
  - exact (proj1 (proj2 (defaultMessageEffect_cases None (Some []) following
                           second 0)) eq_refl).
  - apply (proj1 (proj2 (proj2 (defaultMessageEffect_cases None first following
                                  second 0))));
      [reflexivity | reflexivity | discriminate].
  - exact (proj2 (proj2 (proj2 (defaultMessageEffect_cases None first
                                  (EmailParams.initialUsage second) second 0)))
             eq_refl eq_refl eq_refl).
Defined.

(** ** Failing searches *)

(** X8: the find operations do not catch a failure of the backend: they
    reject with the backend's error, after the one request.  The dashboard
    adapter then reports no timing, and [findItems] of the visualization
    listing leaves the cache of the last search as it was. *)
Theorem find_rejection_propagates
    (svc : Dashboard.Services) (services : Visualizations.Services)
    (searchTerm : jsstring) (options : option FindOptions) (e : Error) :
  (forall w,
      Dashboard.findService_search svc (Dashboard.log w)
        {| Dashboard.search := searchTerm;
           Dashboard.per_page :=
             Dashboard.uiSettings_get svc (str "savedObjects:listingLimit");
           Dashboard.tags :=
             {| Dashboard.included :=
                  default [] (Dashboard.getReferenceIds (options ≫= references));
                Dashboard.excluded :=
                  default [] (Dashboard.getReferenceIds
                                (options ≫= referencesToExclude)) |} |}
      = Rejected e ->
      exists request w',
        Dashboard.findDashboardListingItems svc searchTerm options w
        = (Rejected e, w')
        /\ Dashboard.events_since w w' = [Dashboard.ESearch request false])
  /\ (forall w,
        Visualizations.findListItems services (Visualizations.log w) searchTerm
          (Visualizations.uiSettings_get services (str "savedObjects:listingLimit"))
          (options ≫= references) (options ≫= referencesToExclude)
        = Rejected e ->
        exists w',
          Visualizations.findItems services searchTerm options w = (Rejected e, w')
          /\ Visualizations.events_since w w'
             = [Visualizations.EFindListItems searchTerm
                  (Visualizations.uiSettings_get services
                     (str "savedObjects:listingLimit"))
                  (options ≫= references) (options ≫= referencesToExclude) false]
          /\ Visualizations.visualizedUserContent w'
             = Visualizations.visualizedUserContent w).
Proof.
  split.
  - intros w Hreject.
    rewrite (findDashboardListingItems_rejected _ _ _ _ _ _ eq_refl Hreject).
    eexists _, _. split; [reflexivity|].
    unfold Dashboard.events_since. simpl. apply drop_app_length.
  - intros w Hreject.
    unfold Visualizations.findItems, Visualizations.findVisualizationsForDashboard,
      Visualizations.findListItems_call, bind, gets, Visualizations.record,
      modify, settle, ret.
    simpl. fold SAVED_OBJECTS_LIMIT_SETTING in Hreject. rewrite Hreject.
    eexists. split; [reflexivity|]. split; [|reflexivity].
    unfold Visualizations.events_since. simpl. apply drop_app_length.
Qed.

Lemma find_rejection_propagates_witness :
  fst (Dashboard.findDashboardListingItems MoreSamples.offlineDashboardServices
         (str "Report") None Samples.dashboardWorld)
  = Rejected Samples.boom
  /\ (exists w',
        Visualizations.findItems MoreSamples.offlineVisualizationServices
          (str "Report") None Samples.searchedWorld
        = (Rejected Samples.boom, w')
        /\ Visualizations.visualizedUserContent w'
           = Some [Samples.normalItem; Samples.secondItem]).
Proof.
  split.
  - destruct (proj1 (find_rejection_propagates
                       MoreSamples.offlineDashboardServices
                       MoreSamples.offlineVisualizationServices
                       (str "Report") None Samples.boom)
                Samples.dashboardWorld eq_refl)
      as (request & w' & Hrun & _).
    by rewrite Hrun.
  - destruct (proj2 (find_rejection_propagates
                       MoreSamples.offlineDashboardServices
                       MoreSamples.offlineVisualizationServices
                       (str "Report") None Samples.boom)
                Samples.searchedWorld eq_refl)
      as (w' & Hrun & _ & Hcache).
    exists w'. split; [exact Hrun|]. rewrite Hcache. reflexivity.
Defined.

(** ** More on deleting *)

Section MoreDeleteFacts.
Variable svc : Dashboard.Services.

(** Whatever the backend does, the mapping over a batch only makes
    deletion and clearing calls, for a beginning of the batch, and for the
    whole of it when it resolves. *)
Lemma asyncMap_delete_run ids : forall w,
  exists events r,
    asyncMap ids (Dashboard.deleteOne svc) w
    = (r,
       {| Dashboard.log := Dashboard.log w ++ events;
          Dashboard.clock_reads := Dashboard.clock_reads w;
          Dashboard.unsavedDashboardIds := Dashboard.unsavedDashboardIds w |})
    /\ Traces.delete_attempts events `prefix_of` ids
    /\ Traces.dashboard_toasts events = []
    /\ (is_resolved r = true -> Traces.delete_attempts events = ids).
Proof.
  induction ids as [|y ids IH]; intros w.
  - exists [], (Resolved []). simpl. unfold ret. rewrite app_nil_r.
    destruct w. repeat split; done.
  - simpl. unfold bind at 1.
    destruct (Dashboard.dashboardClient_delete svc (Dashboard.log w) y)
      as [[]|e] eqn:Hdelete.
    + rewrite (deleteOne_resolved svc y w Hdelete).
      unfold bind at 1.
      match goal with |- context [asyncMap ids _ ?w1] =>
        destruct (IH w1) as (events & r & Hrun & Hprefix & Htoasts & Hall)
      end.
      rewrite Hrun. simpl in *.
      exists (Dashboard.deleted [y] ++ events).
      destruct r as [ys|e].
      * eexists. split; [unfold ret; simpl; by rewrite <- app_assoc|].
        unfold Traces.delete_attempts, Traces.dashboard_toasts in *.
        rewrite !omap_app. simpl. rewrite Htoasts.
        split; [by apply prefix_cons|]. split; [done|].
        intros _. by rewrite Hall.
      * eexists. split; [by rewrite <- app_assoc|].
        unfold Traces.delete_attempts, Traces.dashboard_toasts in *.
        rewrite !omap_app. simpl. rewrite Htoasts.
        split; [by apply prefix_cons|]. split; [done|]. discriminate.
    + rewrite (deleteOne_rejected svc y e w Hdelete).
      exists [Dashboard.EDelete y false], (Rejected e).
      split; [reflexivity|]. simpl.
      split; [apply prefix_cons, prefix_nil|]. split; [done|]. discriminate.
Qed.

End MoreDeleteFacts.

(** X9: [deleteItems] contains every failure.  For any batch and any
    backend it resolves; the deletions it attempts are a beginning of the
    batch, in the order of the batch; it shows at most one error toast,
    and none only if every item of the batch was attempted; and it ends by
    refreshing the ids of the dashboards with unsaved changes. *)
Theorem deleteItems_always_resolves
    (svc : Dashboard.Services) (dashboardsToDelete : list jsstring)
    (w : Dashboard.World) :
  exists w',
    Dashboard.deleteItems svc dashboardsToDelete w = (Resolved tt, w')
    /\ Traces.delete_attempts (Dashboard.events_since w w')
         `prefix_of` dashboardsToDelete
    /\ (length (Traces.dashboard_toasts (Dashboard.events_since w w')) <= 1)%nat
    /\ (Traces.dashboard_toasts (Dashboard.events_since w w') = [] ->
        Traces.delete_attempts (Dashboard.events_since w w') = dashboardsToDelete)
    /\ Dashboard.unsavedDashboardIds w'
       = Dashboard.getDashboardIdsWithUnsavedChanges svc (Dashboard.log w').
Proof.
  unfold Dashboard.deleteItems, bind at 1, try_catch, bind at 1, Dashboard.now.
  unfold bind at 1.
  match goal with |- context [asyncMap _ _ ?w1] =>
    destruct (asyncMap_delete_run svc dashboardsToDelete w1)
      as (events & r & Hrun & Hprefix & Htoasts & Hall)
  end.
  rewrite Hrun. simpl in *.
  destruct r as [ys|e].
  - unfold Dashboard.record, modify, Dashboard.refreshUnsaved, bind, gets,
      Dashboard.setUnsavedDashboardIds, modify. simpl.
    eexists. split; [reflexivity|]. simpl.
    unfold Dashboard.events_since. simpl.
    rewrite <- app_assoc, drop_app_length.
    unfold Traces.delete_attempts, Traces.dashboard_toasts in *.
    rewrite !omap_app, Htoasts. simpl. rewrite app_nil_r.
    rewrite (Hall eq_refl). repeat split; [done | lia].
  - unfold Dashboard.record, modify, Dashboard.refreshUnsaved, bind, gets,
      Dashboard.setUnsavedDashboardIds, modify. simpl.
    eexists. split; [reflexivity|]. simpl.
    unfold Dashboard.events_since. simpl.
    rewrite <- app_assoc, drop_app_length.
    unfold Traces.delete_attempts, Traces.dashboard_toasts in *.
    rewrite !omap_app, Htoasts. simpl. rewrite app_nil_r.
    repeat split; [done | lia | discriminate].
Qed.

(** The batch [a], [b], [c] against the backend that refuses to delete
    [b]: the attempts are [a] and [b], with one toast. *)
Lemma deleteItems_always_resolves_witness :
  exists w',
    Dashboard.deleteItems Samples.dashboardServices
      [str "a"; str "b"; str "c"] Samples.dashboardWorld
    = (Resolved tt, w')
    /\ Traces.delete_attempts (Dashboard.events_since Samples.dashboardWorld w')
       = [str "a"; str "b"]
    /\ Traces.dashboard_toasts (Dashboard.events_since Samples.dashboardWorld w')
       = [Samples.boom].
Proof.
  destruct (deleteItems_always_resolves Samples.dashboardServices
              [str "a"; str "b"; str "c"] Samples.dashboardWorld)
    as (w' & Hrun & _).
  exists w'. split; [exact Hrun|].
  apply (f_equal snd) in Hrun. simpl in Hrun. subst w'.
  split; reflexivity.
Defined.

(** X10: when every deletion of the batch succeeds, [deleteItems] deletes
    the items in the order of the batch, each deletion followed by the
    clearing of the item's backup, shows no toast and reports the time
    taken once, with the size of the batch as the total; an empty batch
    makes no deletion call and reports a total of zero. *)
Theorem deleteItems_all_deleted
    (svc : Dashboard.Services) (dashboardsToDelete : list jsstring)
    (w : Dashboard.World)
    (Hdelete : forall history y, y ∈ dashboardsToDelete ->
                 Dashboard.dashboardClient_delete svc history y = Resolved tt) :
  let history' :=
    Dashboard.log w
    ++ Dashboard.deleted dashboardsToDelete
    ++ [Dashboard.EReportPerformanceMetric
          (Dashboard.SAVED_OBJECT_DELETE_TIME svc)
          (Dashboard.performance_now svc (S (Dashboard.clock_reads w))
           - Dashboard.performance_now svc (Dashboard.clock_reads w))%Z
          {| Dashboard.saved_object_type := Dashboard.DASHBOARD_SAVED_OBJECT_TYPE svc;
             Dashboard.meta_total :=
               Some (Z.of_nat (length dashboardsToDelete)) |}] in
  Dashboard.deleteItems svc dashboardsToDelete w
  = (Resolved tt,
     {| Dashboard.log := history';
        Dashboard.clock_reads := S (S (Dashboard.clock_reads w));
        Dashboard.unsavedDashboardIds :=
          Dashboard.getDashboardIdsWithUnsavedChanges svc history' |}).
Proof.
  intros history'. subst history'.
  unfold Dashboard.deleteItems, bind at 1, try_catch, bind at 1, Dashboard.now.
  unfold bind at 1.
  rewrite (asyncMap_delete_all svc dashboardsToDelete) by assumption.
  unfold Dashboard.record, modify, Dashboard.refreshUnsaved, bind, gets,
    Dashboard.setUnsavedDashboardIds, modify.
  simpl. rewrite <- !app_assoc. reflexivity.
Qed.

Lemma deleteItems_all_deleted_witness :
  Dashboard.log
    (snd (Dashboard.deleteItems Samples.dashboardServices [] Samples.dashboardWorld))
  = [Dashboard.EReportPerformanceMetric (str "saved_object_delete_time") 5
       {| Dashboard.saved_object_type := str "dashboard";
          Dashboard.meta_total := Some 0%Z |}]
  /\ Dashboard.log
       (snd (Dashboard.deleteItems Samples.dashboardServices
               [str "c"; str "a"] Samples.dashboardWorld))
     = [Dashboard.EDelete (str "c") true; Dashboard.EClearState (str "c");
        Dashboard.EDelete (str "a") true; Dashboard.EClearState (str "a");
        Dashboard.EReportPerformanceMetric (str "saved_object_delete_time") 5
          {| Dashboard.saved_object_type := str "dashboard";
             Dashboard.meta_total := Some 2%Z |}].
Proof.
  split.
  - rewrite (deleteItems_all_deleted Samples.dashboardServices []
               Samples.dashboardWorld).
    + reflexivity.
    + intros history y Hy. by apply elem_of_nil in Hy.
  - rewrite (deleteItems_all_deleted Samples.dashboardServices
               [str "c"; str "a"] Samples.dashboardWorld).
    + reflexivity.
    + intros history y Hy.
      apply elem_of_cons in Hy as [-> | Hy]; [reflexivity|].
      apply list_elem_of_singleton in Hy as ->. reflexivity.
Defined.

(** X11: the handler of the visualization listing contains a failure of
    [deleteListItems] as well: it always resolves, makes the one
    [deleteListItems] call for the whole batch, and shows a toast exactly
    when that call was rejected, with the error it was rejected with. *)
Theorem deleteItemsHandler_always_resolves
    (services : Visualizations.Services)
    (items : list Visualizations.VisualizeUserContent)
    (w : Visualizations.World) :
  let answer :=
    Visualizations.deleteListItems services (Visualizations.log w) items in
  exists w',
    Visualizations.deleteItemsHandler services items w = (Resolved tt, w')
    /\ Visualizations.visualizedUserContent w'
       = Visualizations.visualizedUserContent w
    /\ Visualizations.events_since w w'
       = Visualizations.EDeleteListItems items (is_resolved answer)
         :: match answer with
            | Resolved _ => []
            | Rejected e =>
                [Visualizations.EAddError e Visualizations.deleteErrorTitle]
            end.
Proof.
  intros answer. subst answer.
  unfold Visualizations.deleteItemsHandler, try_catch,
    Visualizations.deleteListItems_call, bind, gets, Visualizations.record,
    modify, settle, Visualizations.events_since.
  simpl.
  destruct (Visualizations.deleteListItems services (Visualizations.log w) items)
    as [[]|e]; simpl; eexists; (split; [reflexivity|]); (split; [reflexivity|]);
    simpl.
  - apply drop_app_length.
  - rewrite <- app_assoc. apply drop_app_length.
Qed.

(** ** More on the validators and the content editor *)

(** X12: the validator of the dashboard listing, off the main path.  With
    an empty id it makes no call at all and gives no message.  When the
    dashboard cannot be loaded, no duplicate check is made: a failure of
    the lookup comes back as the warning text, a lookup that answers with
    an error status gives no message.  A failure of the duplicate check
    itself comes back as the warning text too. *)
Theorem dashboard_validator_off_path
    (svc : Dashboard.Services) (value dashboardId : jsstring)
    (w : Dashboard.World) :
  let run := Dashboard.fn (Dashboard.titleValidator svc) value dashboardId w in
  let lookup :=
    Dashboard.findService_findById svc (Dashboard.log w) dashboardId in
  (truthy dashboardId = false -> run = (Resolved None, w))
  /\ (forall e,
        truthy dashboardId = true -> lookup = Rejected e ->
        fst run = Resolved (Some (message e))
        /\ Dashboard.events_since w (snd run)
           = [Dashboard.EFindById dashboardId false])
  /\ (truthy dashboardId = true -> lookup = Resolved Dashboard.StatusError ->
      fst run = Resolved None
      /\ Dashboard.events_since w (snd run)
         = [Dashboard.EFindById dashboardId true])
  /\ (forall lastTitle e,
        truthy dashboardId = true ->
        lookup = Resolved (Dashboard.StatusSuccess lastTitle) ->
        Dashboard.checkForDuplicateDashboardTitle svc
          (Dashboard.log w ++ [Dashboard.EFindById dashboardId true])
          {| Dashboard.dup_title := value;
             Dashboard.copyOnSave := false;
             Dashboard.lastSavedTitle := lastTitle;
             Dashboard.isTitleDuplicateConfirmed := false |}
        = Rejected e ->
        fst run = Resolved (Some (message e))).
Proof.
  intros run lookup. subst run lookup.
  destruct (dashboard_validator_run svc value dashboardId w
              (Dashboard.titleValidator svc)) as [_ Hrun];
    [apply list_elem_of_here|].
  rewrite Hrun. clear Hrun. unfold Dashboard.events_since.
  split; [|split; [|split]].
  - by intros ->.
  - intros e -> ->. simpl. split; [done | apply drop_app_length].
  - intros -> ->. simpl. split; [done | apply drop_app_length].
  - intros lastTitle e -> -> Hcheck. simpl. by rewrite Hcheck.
Qed.

Lemma dashboard_validator_off_path_witness :
  Dashboard.fn (Dashboard.titleValidator Samples.dashboardServices)
    (str "Report A") [] Samples.dashboardWorld
  = (Resolved None, Samples.dashboardWorld)
  /\ fst (Dashboard.fn (Dashboard.titleValidator MoreSamples.offlineDashboardServices)
            (str "Report A") (str "2") Samples.dashboardWorld)
     = Resolved (Some (str "Request failed")).
Proof.
  split.
  - exact (proj1 (dashboard_validator_off_path Samples.dashboardServices
                    (str "Report A") [] Samples.dashboardWorld) eq_refl).
  - exact (proj1 (proj1 (proj2 (dashboard_validator_off_path
                                  MoreSamples.offlineDashboardServices
                                  (str "Report A") (str "2")
                                  Samples.dashboardWorld))
                    Samples.boom eq_refl eq_refl)).
Defined.

Section CacheFacts.

(** A successful search leaves its hits in the cache, and the cache
    consistent. *)
Lemma findItems_cache services searchTerm options
    (w w' : Visualizations.World) result :
  Visualizations.findItems services searchTerm options w = (Resolved result, w') ->
  Visualizations.visualizedUserContent w' = Some (Visualizations.hits result)
  /\ Traces.cache_consistent w'.
Proof.
  unfold Visualizations.findItems, Visualizations.findVisualizationsForDashboard,
    Visualizations.findListItems_call, Visualizations.set_visualizedUserContent,
    bind, gets, Visualizations.record, modify, settle, ret.
  simpl. destruct (Visualizations.findListItems _ _ _ _ _ _) as [response|e];
    simpl; [|done].
  intros [= <- <-]. split; [reflexivity|].
  intros items c [= <-] Hc. simpl in Hc.
  apply list_elem_of_fmap in Hc as (item & -> & _). reflexivity.
Qed.

(** Looking up the id of a cached row finds a cached row with that id. *)
Lemma current_find_cached (w : Visualizations.World) items h :
  Visualizations.visualizedUserContent w = Some items -> h ∈ items ->
  exists c,
    Visualizations.current_find (Visualizations.id (Visualizations.vis h)) w
    = Some c
    /\ c ∈ items
    /\ Visualizations.id (Visualizations.vis c)
       = Visualizations.id (Visualizations.vis h).
Proof.
  intros Hcache Hh. unfold Visualizations.current_find. rewrite Hcache. simpl.
  destruct (list_find_elem_of
              (fun c => Visualizations.id (Visualizations.vis c)
                        = Visualizations.id (Visualizations.vis h))
              items h Hh eq_refl) as [[i c] Hfind].
  rewrite Hfind. exists c. split; [reflexivity|].
  apply list_find_Some in Hfind as (Hi & Hc & _).
  split; [by eapply list_elem_of_lookup_2 | exact Hc].
Qed.

End CacheFacts.

(** X13: every row a search returned can be saved from the content
    editor.  After a successful [findItems], [onContentEditorSave] with
    the id of one of the hits issues exactly one update; the update goes
    to the saved object with the id that was asked for and carries the
    type of a hit with that id; the cache stays what the search left. *)
Theorem save_after_search
    (services : Visualizations.Services) (searchTerm : jsstring)
    (options : option FindOptions) (w w' : Visualizations.World)
    (result : Visualizations.SearchResult)
    (h : Visualizations.VisualizeUserContent) (args : Visualizations.SaveArgs)
    (Hsearch : Visualizations.findItems services searchTerm options w
               = (Resolved result, w'))
    (Hhit : h ∈ Visualizations.hits result)
    (Hid : Visualizations.args_id args = Visualizations.id (Visualizations.vis h)) :
  exists c,
    c ∈ Visualizations.hits result
    /\ Visualizations.id (Visualizations.vis c) = Visualizations.args_id args
    /\ let attrs :=
         {| Visualizations.new_title := Visualizations.args_title args;
            Visualizations.new_description :=
              default [] (Visualizations.args_description args);
            Visualizations.new_tags := Visualizations.args_tags args |} in
       let answer :=
         Visualizations.updateBasicSoAttributes services (Visualizations.log w')
           (Visualizations.args_id args) (Visualizations.type c) attrs in
       Visualizations.onContentEditorSave services args w'
       = (answer,
          {| Visualizations.log :=
               Visualizations.log w'
               ++ [Visualizations.EUpdateBasicSoAttributes
                     (Visualizations.args_id args) (Visualizations.type c)
                     attrs (is_resolved answer)];
             Visualizations.visualizedUserContent :=
               Some (Visualizations.hits result) |}).
Proof.
  destruct (findItems_cache _ _ _ _ _ _ Hsearch) as [Hcache Hconsistent].
  destruct (current_find_cached w' _ h Hcache Hhit) as (c & Hfind & Hc & Hcid).
  exists c. split; [exact Hc|]. split; [congruence|].
  intros attrs answer. subst attrs answer.
  unfold Visualizations.onContentEditorSave, bind at 1, gets.
  rewrite Hid, Hfind.
  unfold Visualizations.updateBasicSoAttributes_call, bind, gets,
    Visualizations.record, modify, settle.
  rewrite (Hconsistent _ c Hcache Hc), Hcid, Hcache. reflexivity.
Qed.

Lemma save_after_search_witness :
  Visualizations.events_since Samples.searchedWorld
    (snd (Visualizations.onContentEditorSave Samples.visualizationServices
            (Samples.saveArgs "1") Samples.searchedWorld))
  = [Visualizations.EUpdateBasicSoAttributes (str "1") (str "visualization")
       {| Visualizations.new_title := str "Report C";
          Visualizations.new_description := [];
          Visualizations.new_tags := [str "tag-1"] |}
       true].
Proof.
  destruct (save_after_search Samples.visualizationServices (str "") None
              Samples.visualizationWorld Samples.searchedWorld
              {| Visualizations.total := 7;
                 Visualizations.hits := [Samples.normalItem; Samples.secondItem] |}
              Samples.normalItem (Samples.saveArgs "1") eq_refl
              (list_elem_of_here _ _) eq_refl)
    as (c & Hc & Hcid & Hrun).
  rewrite Hrun. clear Hrun.
  apply elem_of_cons in Hc as [-> | Hc]; [reflexivity|].
  apply list_elem_of_singleton in Hc as ->. discriminate Hcid.
Defined.

(** X14: the validator of the visualization listing checks only what the
    last search returned.  With an empty id, before any search, or for an
    id the cache does not hold, it makes no call and gives no message.
    After a successful search, for the id of one of the hits, it makes
    exactly one duplicate check, for that id, the candidate title and the
    saved title of a hit with that id. *)
Theorem visualization_validator_checks_cached
    (services : Visualizations.Services) (value visId : jsstring)
    (w : Visualizations.World) :
  let run := Visualizations.fn (Visualizations.titleValidator services)
               value visId w in
  (truthy visId = false \/ Visualizations.current_find visId w = None ->
   run = (Resolved None, w))
  /\ (forall items h,
        Visualizations.visualizedUserContent w = Some items -> h ∈ items ->
        Visualizations.id (Visualizations.vis h) = visId ->
        truthy visId = true ->
        exists c args resolved,
          c ∈ items
          /\ args
             = {| Visualizations.dup_id := visId;
                  Visualizations.dup_title := value;
                  Visualizations.lastSavedTitle :=
                    Visualizations.title (Visualizations.vis c);
                  Visualizations.copyOnSave := false;
                  Visualizations.isTitleDuplicateConfirmed := false |}
          /\ Visualizations.id (Visualizations.vis c) = visId
          /\ Visualizations.events_since w (snd run)
             = [Visualizations.ECheckForDuplicateTitle args resolved]).
Proof.
  intros run. subst run.
  destruct (visualization_validator_run services value visId w
              (Visualizations.titleValidator services)) as [_ Hrun];
    [apply list_elem_of_here|].
  rewrite Hrun. clear Hrun. split.
  - intros [-> | Hfind]; [done|]. rewrite Hfind. by destruct (truthy visId).
  - intros items h Hcache Hh <- ->.
    destruct (current_find_cached w items h Hcache Hh) as (c & -> & Hc & Hcid).
    eexists c, _, _. split; [exact Hc|]. split; [reflexivity|].
    split; [exact Hcid|]. unfold Visualizations.events_since. simpl.
    apply drop_app_length.
Qed.

Lemma visualization_validator_checks_cached_witness :
  Visualizations.fn (Visualizations.titleValidator Samples.visualizationServices)
    (str "Report A") (str "2") Samples.visualizationWorld
  = (Resolved None, Samples.visualizationWorld)
  /\ exists c args resolved,
       c ∈ [Samples.normalItem; Samples.secondItem]
       /\ args
          = {| Visualizations.dup_id := str "2";
               Visualizations.dup_title := str "Report A";
               Visualizations.lastSavedTitle :=
                 Visualizations.title (Visualizations.vis c);
               Visualizations.copyOnSave := false;
               Visualizations.isTitleDuplicateConfirmed := false |}
       /\ Visualizations.id (Visualizations.vis c) = str "2"
       /\ Visualizations.events_since Samples.searchedWorld
            (snd (Visualizations.fn
                    (Visualizations.titleValidator Samples.visualizationServices)
                    (str "Report A") (str "2") Samples.searchedWorld))
          = [Visualizations.ECheckForDuplicateTitle args resolved].
Proof.
  split.
  - apply (proj1 (visualization_validator_checks_cached
                    Samples.visualizationServices (str "Report A") (str "2")
                    Samples.visualizationWorld)).
    by right.
  - apply (proj2 (visualization_validator_checks_cached
                    Samples.visualizationServices (str "Report A") (str "2")
                    Samples.searchedWorld)
             [Samples.normalItem; Samples.secondItem] Samples.secondItem);
      [reflexivity | apply list_elem_of_further, list_elem_of_here
       | reflexivity | reflexivity].
Defined.

(** ** Editing, row actions and capabilities *)

(** X15: [editItem] opens exactly one editor, whatever the item.  An item
    with an edit callback of its own is handed to that callback, the only
    call made, and [editItem] settles as the callback does.  Every other
    item is navigated to and [editItem] resolves: with one call, to the
    route of the item in the application it names, when it names one; and
    otherwise (no editor, or no application named) by fetching the state
    transfer and then navigating to the default editor by the id of the
    item, two calls in this order. *)
Theorem editItem_opens_one_editor
    (services : Visualizations.Services)
    (item : Visualizations.VisualizeUserContent) (w : Visualizations.World) :
  let visId := Visualizations.attr_id (Visualizations.attributes item) in
  let itemEditor := Visualizations.editor (Visualizations.vis item) in
  exists events r,
    Visualizations.editItem services item w
    = (r, {| Visualizations.log := Visualizations.log w ++ events;
             Visualizations.visualizedUserContent :=
               Visualizations.visualizedUserContent w |})
    /\ (itemEditor = Some Visualizations.EditorOnEdit ->
        r = Visualizations.onEdit services (Visualizations.log w) visId
        /\ events = [Visualizations.EOnEdit visId (is_resolved r)])
    /\ (itemEditor <> Some Visualizations.EditorOnEdit -> r = Resolved tt)
    /\ (forall editUrl editApp,
          itemEditor = Some (Visualizations.EditorUrl editUrl (Some editApp)) ->
          truthy editApp = true ->
          events = [Visualizations.ENavigateToApp editApp editUrl])
    /\ (forall editUrl editApp,
          itemEditor = Some (Visualizations.EditorUrl editUrl editApp) ->
          truthy_opt editApp = false ->
          events = [Visualizations.EGetStateTransfer;
                    Visualizations.ENavigateToVisualization visId])
    /\ (itemEditor = None ->
        events = [Visualizations.EGetStateTransfer;
                  Visualizations.ENavigateToVisualization visId]).
Proof.
  intros visId itemEditor. subst visId itemEditor.
  unfold Visualizations.editItem, Visualizations.navigateToVisualization_call,
    Visualizations.onEdit_call, bind, gets, Visualizations.record, modify, settle.
  destruct (Visualizations.editor (Visualizations.vis item))
    as [[|editUrl [editApp|]]|]; simpl.
  - eexists _, _. split; [reflexivity|]. repeat split; try done.
  - destruct (truthy editApp) eqn:Happ; simpl;
      (eexists _, _; split; [try rewrite <- app_assoc; reflexivity|]);
      repeat split; try done; intros ? ? [= <- <-] Ht; simpl in Ht; congruence.
  - eexists _, _. split; [rewrite <- app_assoc; reflexivity|].
    repeat split; try done.
  - eexists _, _. split; [rewrite <- app_assoc; reflexivity|].
    repeat split; try done.
Qed.

(** An item with a callback of its own that fails, and an item with a
    route but no application. *)
Lemma editItem_opens_one_editor_witness :
  Visualizations.editItem MoreSamples.offlineVisualizationServices
    MoreSamples.customEditorItem Samples.visualizationWorld
  = (Rejected Samples.boom,
     {| Visualizations.log := [Visualizations.EOnEdit (str "6") false];
        Visualizations.visualizedUserContent := None |})
  /\ Visualizations.editItem Samples.visualizationServices
       MoreSamples.routeWithoutAppItem Samples.visualizationWorld
     = (Resolved tt,
        {| Visualizations.log :=
             [Visualizations.EGetStateTransfer;
              Visualizations.ENavigateToVisualization (str "7")];
           Visualizations.visualizedUserContent := None |}).
Proof.
  split.
  - destruct (editItem_opens_one_editor MoreSamples.offlineVisualizationServices
                MoreSamples.customEditorItem Samples.visualizationWorld)
      as (events & r & Hrun & Hcustom & _).
    destruct (Hcustom eq_refl) as [-> ->]. exact Hrun.
  - destruct (editItem_opens_one_editor Samples.visualizationServices
                MoreSamples.routeWithoutAppItem Samples.visualizationWorld)
      as (events & r & Hrun & _ & Hresolved & _ & Hdefault & _).
    rewrite (Hresolved ltac:(discriminate)) in Hrun.
    rewrite (Hdefault (str "/edit/7") (Some []) eq_refl eq_refl) in Hrun.
    exact Hrun.
Defined.

(** X16: [rowItemActions] never enables anything.  It answers nothing
    exactly when the caller may save (write) and the item is neither
    managed nor, for a visualization, read-only; otherwise it disables
    editing, and gives a reason exactly when the item is to blame: the
    reason for managed items if the item is managed, else the one for
    read-only visualizations. *)
Theorem rowItemActions_cases
    (svc : Dashboard.Services) (services : Visualizations.Services)
    (dashboardItem : Dashboard.DashboardSavedObjectUserContent)
    (visItem : Visualizations.VisualizeUserContent) :
  let isManaged := truthy_flag (Dashboard.managed dashboardItem) in
  let visManaged :=
    truthy_flag (Visualizations.managed (Visualizations.vis visItem)) in
  let visReadOnly :=
    Visualizations.attr_readOnly (Visualizations.attributes visItem) in
  (Dashboard.rowItemActions svc dashboardItem = None
   <-> Dashboard.showWriteControls svc = true /\ isManaged = false)
  /\ (forall actions,
        Dashboard.rowItemActions svc dashboardItem = Some actions ->
        enabled (edit actions) = false
        /\ reason (edit actions)
           = if isManaged
             then Some (Dashboard.getManagementItemDisabledEditMessage svc)
             else None)
  /\ (Visualizations.rowItemActions services visItem = None
      <-> Visualizations.canSave services = true
          /\ visManaged = false /\ visReadOnly = false)
  /\ (forall actions,
        Visualizations.rowItemActions services visItem = Some actions ->
        enabled (edit actions) = false
        /\ reason (edit actions)
           = if visManaged then Some Visualizations.managedVisualizationMessage
             else if visReadOnly
                  then Some Visualizations.readOnlyVisualizationMessage
                  else None).
Proof.
  intros isManaged visManaged visReadOnly. subst isManaged visManaged visReadOnly.
  unfold Dashboard.rowItemActions, Visualizations.rowItemActions.
  split; [|split; [|split]].
  - destruct (Dashboard.showWriteControls svc),
      (truthy_flag (Dashboard.managed dashboardItem)); simpl;
      split; try done; intros [? ?]; done.
  - intros actions.
    destruct (Dashboard.showWriteControls svc),
      (truthy_flag (Dashboard.managed dashboardItem)); simpl;
      try done; by intros [= <-].
  - destruct (Visualizations.canSave services),
      (truthy_flag (Visualizations.managed (Visualizations.vis visItem))),
      (Visualizations.attr_readOnly (Visualizations.attributes visItem));
      simpl; split; try done; intros (? & ? & ?); done.
  - intros actions.
    destruct (Visualizations.canSave services),
      (truthy_flag (Visualizations.managed (Visualizations.vis visItem))),
      (Visualizations.attr_readOnly (Visualizations.attributes visItem));
      simpl; try done; by intros [= <-].
Qed.

(** A read-only visualization and a plain one, for a caller who may
    save; a plain dashboard for a caller who may not write. *)
Lemma rowItemActions_cases_witness :
  Visualizations.rowItemActions Samples.visualizationServices Samples.normalItem
  = None
  /\ (forall actions,
        Visualizations.rowItemActions Samples.visualizationServices
          Samples.readOnlyItem = Some actions ->
        enabled (edit actions) = false
        /\ reason (edit actions)
           = Some Visualizations.readOnlyVisualizationMessage)
  /\ (forall actions,
        Dashboard.rowItemActions MoreSamples.offlineDashboardServices
          Samples.managedDashboard = Some actions ->
        enabled (edit actions) = false
        /\ reason (edit actions)
           = Some (str "Elastic manages this dashboard. Clone it to make changes.")).
Proof.
  split; [|split].
  - apply (proj1 (proj2 (proj2 (rowItemActions_cases Samples.dashboardServices
                                  Samples.visualizationServices
                                  Samples.managedDashboard Samples.normalItem)))).
    repeat split.
  - exact (proj2 (proj2 (proj2 (rowItemActions_cases Samples.dashboardServices
                                  Samples.visualizationServices
                                  Samples.managedDashboard Samples.readOnlyItem)))).
  - exact (proj1 (proj2 (rowItemActions_cases MoreSamples.offlineDashboardServices
                           Samples.visualizationServices
                           Samples.managedDashboard Samples.normalItem))).
Defined.

(** X17: the visualization listing offers [deleteItems] exactly when the
    delete capability is true, or is not given and the save capability is
    true; a delete capability of false wins over a save capability of
    true.  What it offers is the handler. *)
Theorem deleteItems_offered (services : Visualizations.Services) :
  (is_Some (Visualizations.deleteItems services)
   <-> Visualizations.capability_delete services = Some true
       \/ (Visualizations.capability_delete services = None
           /\ Visualizations.capability_save services = Some true))
  /\ (forall handler,
        Visualizations.deleteItems services = Some handler ->
        handler = Visualizations.deleteItemsHandler services).
Proof.
  unfold Visualizations.deleteItems, Visualizations.canDelete.
  destruct (Visualizations.capability_delete services) as [[|]|],
    (Visualizations.capability_save services) as [[|]|]; simpl;
    (split; [split|]);
    try (intros [? [=]]); try (intros [[=] | [[=] [=]]]); try (by eexists);
    try (by left); try (by right); try (by intros ? [= <-]); try done.
Qed.

(** Saving allowed and nothing said about deleting: the handler is
    offered; deleting forbidden: it is not, though saving is allowed. *)
Lemma deleteItems_offered_witness :
  is_Some (Visualizations.deleteItems Samples.visualizationServices)
  /\ Visualizations.capability_save MoreSamples.offlineVisualizationServices
     = Some true
  /\ ~ is_Some (Visualizations.deleteItems MoreSamples.offlineVisualizationServices).
Proof.
  split; [|split; [reflexivity|]].
  - apply (proj1 (deleteItems_offered Samples.visualizationServices)).
    right. split; reflexivity.
  - intros Hoffered.
    apply (proj1 (deleteItems_offered MoreSamples.offlineVisualizationServices))
      in Hoffered as [Hdelete | [Hdelete _]]; discriminate.
Defined.

(** ** More on the registration shim *)

Section MorePluginFacts.
Import VisualizationListingPlugin.

(** What one [setup] with the dashboard does to a well-formed store. *)
Lemma setup_with_dashboard (w : World) address elements :
  well_formed w -> sets w !! address = Some elements ->
  setup {| dashboard := Some {| listingViewRegistry := address |} |} w
  = (Resolved tt,
     {| sets :=
          <[address :=
              elements
              ++ [ {| tab_object := allocated w;
                      tab_title := visualizationsTabTitle;
                      tab_id := str "visualizations";
                      getTableList := VisualizationsTableListFactory |} ]]>
            (sets w);
        allocated := S (allocated w);
        logged := logged w |}).
Proof.
  intros Hwf Hset.
  unfold setup, bind, allocate, Set_add. simpl. rewrite Hset. simpl.
  rewrite bool_decide_eq_false_2; [reflexivity|].
  intros Hin. apply list_elem_of_fmap in Hin as (tab & Heq & Htab).
  specialize (Hwf address elements tab Hset Htab). lia.
Qed.

(** Lifecycle calls keep the store well formed and keep every set. *)
Lemma call_keeps_well_formed h (w : World) :
  well_formed w ->
  well_formed (snd (call h w))
  /\ (forall address, is_Some (sets w !! address) ->
        is_Some (sets (snd (call h w)) !! address)).
Proof.
  intros Hwf. destruct h as [[[[address]|]]|]; simpl; try done.
  destruct (sets w !! address) as [elements|] eqn:Hset.
  - rewrite (setup_with_dashboard w address elements Hwf Hset). simpl. split.
    + intros address' elements' tab Hset' Htab. simpl in *.
      destruct (decide (address = address')) as [<-|Hne].
      * rewrite lookup_insert_eq in Hset'. injection Hset' as <-.
        apply elem_of_app in Htab as [Htab|Htab].
        -- specialize (Hwf address elements tab Hset Htab). lia.
        -- apply list_elem_of_singleton in Htab as ->. simpl. lia.
      * rewrite lookup_insert_ne in Hset' by done.
        specialize (Hwf address' elements' tab Hset' Htab). lia.
    + intros address' Hsome.
      destruct (decide (address = address')) as [<-|Hne].
      * rewrite lookup_insert_eq. by eexists.
      * by rewrite lookup_insert_ne.
  - unfold setup, bind, allocate, Set_add. simpl. rewrite Hset. simpl. split.
    + intros address' elements' tab Hset' Htab. simpl in *.
      specialize (Hwf address' elements' tab Hset' Htab). lia.
    + done.
Qed.

(** One call registers one tab when it is a [setup] handed the registry,
    and none otherwise. *)
Lemma call_registrations h (w : World) address :
  well_formed w -> is_Some (sets w !! address) ->
  registrations address (snd (call h w))
  = (registrations address w
     + if DashboardListingTabs.is_setup_with address h then 1 else 0)%nat.
Proof.
  intros Hwf [elements Hset].
  destruct h as [[[[address']|]]|]; simpl; try lia.
  destruct (decide (address' = address)) as [->|Hne].
  - rewrite bool_decide_eq_true_2 by done.
    rewrite (setup_with_dashboard w address elements Hwf Hset). cbn [snd].
    rewrite registrations_insert, decide_True by done.
    unfold registrations. rewrite Hset. simpl.
    rewrite filter_app, length_app. simpl. lia.
  - rewrite bool_decide_eq_false_2 by done.
    destruct (sets w !! address') as [elements'|] eqn:Hset'.
    + rewrite (setup_with_dashboard w address' elements' Hwf Hset'). cbn [snd].
      rewrite registrations_insert, decide_False by done. lia.
    + unfold setup, bind, allocate, Set_add. simpl. rewrite Hset'. simpl.
      unfold registrations. simpl. lia.
Qed.

End MorePluginFacts.

(** X18: the plugin keeps no record of having registered.  Over any
    sequence of lifecycle calls on a well-formed store, the number of
    visualizations tabs in a registry grows by exactly the number of
    [setup] calls that were handed this registry: a second [setup] adds a
    second tab, [start] and a [setup] without the dashboard add none. *)
Theorem registrations_count_setups
    (hooks : list VisualizationListingPlugin.Hook)
    (w : VisualizationListingPlugin.World) (address : nat)
    (Hwf : VisualizationListingPlugin.well_formed w)
    (Hregistry : is_Some (VisualizationListingPlugin.sets w !! address)) :
  VisualizationListingPlugin.registrations address
    (DashboardListingTabs.after_hooks hooks w)
  = (VisualizationListingPlugin.registrations address w
     + DashboardListingTabs.setups_with address hooks)%nat.
Proof.
  revert w Hwf Hregistry.
  induction hooks as [|h hooks IH]; intros w Hwf Hregistry.
  - unfold DashboardListingTabs.setups_with. simpl. lia.
  - simpl. destruct (call_keeps_well_formed h w Hwf) as [Hwf' Hsets].
    rewrite IH by auto.
    rewrite (call_registrations h w address Hwf Hregistry).
    unfold DashboardListingTabs.setups_with.
    destruct (DashboardListingTabs.is_setup_with address h) eqn:Hh.
    + rewrite filter_cons_True by done. simpl. lia.
    + rewrite filter_cons_False by congruence. lia.
Qed.

Lemma registrations_count_setups_witness :
  VisualizationListingPlugin.registrations 0
    (DashboardListingTabs.after_hooks
       [VisualizationListingPlugin.CallSetup Samples.withDashboard;
        VisualizationListingPlugin.CallStart;
        VisualizationListingPlugin.CallSetup Samples.withoutDashboard;
        VisualizationListingPlugin.CallSetup Samples.withDashboard]
       Samples.registryWorld)
  = 2%nat.
Proof.
  rewrite (registrations_count_setups _ Samples.registryWorld 0).
  - reflexivity.
  - intros address elements tab Hset Htab. simpl in Hset.
    apply lookup_singleton_Some in Hset as [_ <-]. by apply elem_of_nil in Htab.
  - simpl. rewrite lookup_singleton_eq. by eexists.
Defined.

(** X19: the tabs of the dashboard listing.  The dashboards tab always
    comes first and is the only tab when no registry is handed in; the
    tabs of the registry follow in the order they were registered.  After
    the visualization-listing plugin's [setup], the listing shows the tabs
    it showed before and, last, the visualizations tab. *)
Theorem tabs_after_setup
    (DASHBOARD_APP_ID : jsstring) (address : nat)
    (w : VisualizationListingPlugin.World)
    (elements : list VisualizationListingPlugin.TableListTab)
    (Hwf : VisualizationListingPlugin.well_formed w)
    (Hregistry : VisualizationListingPlugin.sets w !! address = Some elements) :
  let dashboardsTab :=
    DashboardListingTabs.DashboardsTab (str "Dashboards") DASHBOARD_APP_ID in
  let w' :=
    snd (VisualizationListingPlugin.setup
           {| VisualizationListingPlugin.dashboard :=
                Some {| VisualizationListingPlugin.listingViewRegistry :=
                          address |} |} w) in
  DashboardListingTabs.getDashboardListingTabs DASHBOARD_APP_ID None w'
  = (Resolved [dashboardsTab], w')
  /\ DashboardListingTabs.getDashboardListingTabs DASHBOARD_APP_ID (Some address) w
     = (Resolved (dashboardsTab :: map DashboardListingTabs.RegistryTab elements),
        w)
  /\ exists tab,
       DashboardListingTabs.getDashboardListingTabs DASHBOARD_APP_ID
         (Some address) w'
       = (Resolved (dashboardsTab
                    :: map DashboardListingTabs.RegistryTab elements
                    ++ [DashboardListingTabs.RegistryTab tab]),
          w')
       /\ VisualizationListingPlugin.tab_id tab = str "visualizations"
       /\ VisualizationListingPlugin.tab_title tab = str "Visualizations".
Proof.
  intros dashboardsTab w'. subst dashboardsTab w'.
  rewrite (setup_with_dashboard w address elements Hwf Hregistry). cbn [snd].
  unfold DashboardListingTabs.getDashboardListingTabs,
    DashboardListingTabs.Array_from, bind, ret.
  split; [reflexivity|]. split.
  - rewrite Hregistry. reflexivity.
  - eexists. cbn [VisualizationListingPlugin.sets].
    rewrite lookup_insert_eq. rewrite map_app.
    split; [reflexivity|]. split; reflexivity.
Qed.

Lemma tabs_after_setup_witness :
  map DashboardListingTabs.id_of
    (match
       fst (DashboardListingTabs.getDashboardListingTabs (str "dashboards")
              (Some 0%nat)
              (snd (VisualizationListingPlugin.setup Samples.withDashboard
                      Samples.registryWorld)))
     with
     | Resolved tabs => tabs
     | Rejected _ => []
     end)
  = [str "dashboards"; str "visualizations"].
Proof.
  destruct (tabs_after_setup (str "dashboards") 0 Samples.registryWorld [])
    as (_ & _ & tab & Hrun & Hid & _).
  - intros address elements tab Hset Htab. simpl in Hset.
    apply lookup_singleton_Some in Hset as [_ <-]. by apply elem_of_nil in Htab.
  - simpl. by rewrite lookup_singleton_eq.
  - unfold Samples.withDashboard. rewrite Hrun. simpl. by rewrite Hid.
Defined.

(** ** The rows of a search *)

(** X20: the rows of the visualization listing follow the records of the
    backend, one row per record and in the same order.  A row repeats the
    id and the title of its record; its type is the saved-object type when
    the record has no type or an empty one; its title can be clicked
    exactly when the record is neither read-only nor carries an error; and
    its editing is left unrestricted exactly when the caller may save and
    the record is neither managed nor read-only. *)
Theorem search_rows_follow_records
    (services : Visualizations.Services) (searchTerm : jsstring)
    (options : option FindOptions) (w : Visualizations.World)
    (response : Visualizations.ListResponse)
    (Hbackend :
       Visualizations.findListItems services (Visualizations.log w) searchTerm
         (Visualizations.uiSettings_get services (str "savedObjects:listingLimit"))
         (options ≫= references) (options ≫= referencesToExclude)
       = Resolved response) :
  exists result w',
    Visualizations.findItems services searchTerm options w = (Resolved result, w')
    /\ Forall2
         (fun item row =>
            Visualizations.vis row = item
            /\ Visualizations.attr_id (Visualizations.attributes row)
               = Visualizations.id item
            /\ Visualizations.attr_title (Visualizations.attributes row)
               = Visualizations.title item
            /\ (truthy_opt (Visualizations.vis_type item) = false ->
                Visualizations.type row = Visualizations.savedObjectType item)
            /\ (is_Some (Visualizations.getOnClickTitle services row)
                <-> Visualizations.readOnly item <> Some true
                    /\ truthy_opt (Visualizations.error item) = false)
            /\ (Visualizations.rowItemActions services row = None
                <-> Visualizations.canSave services = true
                    /\ Visualizations.managed item <> Some true
                    /\ Visualizations.readOnly item <> Some true))
         (Visualizations.resp_hits response) (Visualizations.hits result).
Proof.
  unfold Visualizations.findItems, Visualizations.findVisualizationsForDashboard,
    Visualizations.findListItems_call, Visualizations.set_visualizedUserContent,
    bind, gets, Visualizations.record, modify, settle, ret.
  simpl. fold SAVED_OBJECTS_LIMIT_SETTING in Hbackend. rewrite Hbackend. simpl.
  eexists _, _. split; [reflexivity|]. simpl.
  induction (Visualizations.resp_hits response) as [|item items IH];
    simpl; constructor; [|exact IH].
  unfold Visualizations.getOnClickTitle, Visualizations.rowItemActions. simpl.
  split; [reflexivity|]. split; [reflexivity|]. split; [reflexivity|].
  split; [|split].
  - destruct (Visualizations.vis_type item) as [[|c t]|]; simpl; done.
  - destruct (Visualizations.readOnly item) as [[|]|],
      (truthy_opt (Visualizations.error item)); simpl; split;
      try (by intros [? [=]]); try (by intros [? ?]); try (by eexists);
      try done.
  - destruct (Visualizations.canSave services),
      (Visualizations.managed item) as [[|]|],
      (Visualizations.readOnly item) as [[|]|]; simpl; split;
      try done; try (by intros (? & ? & ?)).
Qed.

Lemma search_rows_follow_records_witness :
  exists w',
    Visualizations.findItems Samples.visualizationServices (str "Report") None
      Samples.visualizationWorld
    = (Resolved {| Visualizations.total := 7;
                   Visualizations.hits :=
                     [Samples.normalItem; Samples.secondItem] |}, w')
    /\ is_Some (Visualizations.getOnClickTitle Samples.visualizationServices
                  Samples.normalItem).
Proof.
  destruct (search_rows_follow_records Samples.visualizationServices
              (str "Report") None Samples.visualizationWorld
              {| Visualizations.resp_total := 7;
                 Visualizations.resp_hits :=
                   [Samples.visItem "1" "Report A"; Samples.visItem "2" "Report B"] |}
              eq_refl)
    as (result & w' & Hrun & Hrows).
  exists w'.
  assert (Hresult : result
                    = {| Visualizations.total := 7;
                         Visualizations.hits :=
                           [Samples.normalItem; Samples.secondItem] |})
    by (vm_compute in Hrun; by injection Hrun as <- _).
  subst result. split; [exact Hrun|].
  apply Forall2_cons_1 in Hrows as [(_ & _ & _ & _ & Hclick & _) _].
  apply Hclick. split; [discriminate | reflexivity].
Defined.
